(** * Wordware MCP server: dispatch, templating, extraction and job tracking

    A shallow embedding of the Python sources
    - [tools.py]         (the declarative tool table),
    - [ReActTool.py]     (template renderer, dynamic tools, dispatch, refinement pass),
    - [wordware_mcp.py]  (the Notion page client with input cleaning and its job store),
    - [wordware_api.py]  (the plain client)
    together with the properties stated about them.

    Conventions of the embedding.
    - Python text is a [string]; one [ascii] stands for one character, so the
      characters covered are the code points below 256.  Case folding, white
      space and [repr] follow CPython on that range.
    - Python objects that reach the modelled code (keyword arguments, JSON
      documents, payload templates) are values of [pyval]; floating point
      numbers are not represented.
    - A call either returns or raises: [outcome].  Exception texts are the
      ones CPython 3.11 prints.  Code that talks to the network, to the job
      store or to standard output threads a [world]: the job store, the
      scheduled coroutines, the requests sent so far and the text written
      by [print].
    - Converting an object to text ([str], [format], an f-string, [print])
      raises beyond two limits of the interpreter: a [ValueError] for an
      int of more than 4300 digits and a [RecursionError] for containers
      nested too deeply.  Both are represented ([text_fault]), at every
      place where the code converts an object that its caller supplies.
    - Library behaviour that the repository only calls ([json.loads], the
      HTTP exchange, the parts of [str.format] beyond plain [{name}] fields)
      and the room that the recursion limit leaves are members of the class
      [Runtime]; every general statement holds for all runtimes.
    - The records handed to [logger] go to standard error and are not kept;
      building their texts is represented where it can raise.  The pauses
      of the refinement pass are not represented. *)

From Stdlib Require Import ZArith NArith Ascii.
From stdpp Require Import base tactics option list gmap strings pretty.

Local Open Scope Z_scope.

(** ** Python text, values and exceptions *)
Module Py.

Definition code (c : ascii) : N := N_of_ascii c.

Definition char_eqb (a b : ascii) : bool := Ascii.eqb a b.

(** [str.isspace] on one character (CPython's [Py_UNICODE_ISSPACE]). *)
Definition isspace (c : ascii) : bool :=
  let n := code c in
  (((9 <=? n) && (n <=? 13)) || ((28 <=? n) && (n <=? 32))
   || (n =? 133) || (n =? 160))%N.

(** [str.lower] on one character. *)
Definition lower_char (c : ascii) : ascii :=
  let n := code c in
  if (((65 <=? n) && (n <=? 90))
      || ((192 <=? n) && (n <=? 222) && negb (n =? 215)))%N
  then ascii_of_N (n + 32) else c.

Fixpoint lower (s : string) : string :=
  match s with
  | EmptyString => EmptyString
  | String c t => String (lower_char c) (lower t)
  end.

Fixpoint startswith (p s : string) : bool :=
  match p, s with
  | EmptyString, _ => true
  | String a p', String b s' => char_eqb a b && startswith p' s'
  | String _ _, EmptyString => false
  end.

(** [needle in hay]. *)
Fixpoint contains (needle hay : string) : bool :=
  match hay with
  | EmptyString => startswith needle hay
  | String _ t => startswith needle hay || contains needle t
  end.

Definition is_empty (s : string) : bool :=
  match s with EmptyString => true | String _ _ => false end.

Fixpoint lstrip (s : string) : string :=
  match s with
  | EmptyString => EmptyString
  | String c t => if isspace c then lstrip t else s
  end.

Fixpoint rstrip (s : string) : string :=
  match s with
  | EmptyString => EmptyString
  | String c t =>
      let t' := rstrip t in
      if isspace c && is_empty t' then EmptyString else String c t'
  end.

Definition strip (s : string) : string := lstrip (rstrip s).

(** [s.split(sep)] for a one-character separator: never the empty list. *)
Fixpoint split (sep : ascii) (s : string) : list string :=
  match s with
  | EmptyString => [EmptyString]
  | String c t =>
      if char_eqb c sep then EmptyString :: split sep t
      else match split sep t with
           | h :: r => String c h :: r
           | [] => [String c EmptyString]
           end
  end.

(** [sep.join(parts)]. *)
Fixpoint join (sep : string) (parts : list string) : string :=
  match parts with
  | [] => EmptyString
  | [x] => x
  | x :: r => x +:+ sep +:+ join sep r
  end.

(** [s[:n]]. *)
Fixpoint take_prefix (n : nat) (s : string) : string :=
  match n, s with
  | S n', String c t => String c (take_prefix n' t)
  | _, _ => EmptyString
  end.

Fixpoint remove_chars (bad : ascii -> bool) (s : string) : string :=
  match s with
  | EmptyString => EmptyString
  | String c t => if bad c then remove_chars bad t else String c (remove_chars bad t)
  end.

Fixpoint mem_char (c : ascii) (s : string) : bool :=
  match s with
  | EmptyString => false
  | String d t => char_eqb c d || mem_char c t
  end.

Definition newline : ascii := "010"%char.
Definition dquote : ascii := "034"%char.
Definition squote : ascii := "039"%char.
Definition backslash : ascii := "092"%char.

Definition chr (c : ascii) : string := String c EmptyString.

(** *** Values *)

#[warnings="-register-all"]
Inductive pyval : Type :=
| PNone
| PBool (b : bool)
| PInt (n : Z)
| PStr (s : string)
| PList (l : list pyval)
| PDict (d : list (string * pyval)).

(** A [dict] with text keys, in insertion order; also the keyword arguments
    of a call. *)
Abbreviation pydict := (list (string * pyval)).

Fixpoint dict_lookup {A : Type} (d : list (string * A)) (k : string) : option A :=
  match d with
  | [] => None
  | (k', v) :: r => if String.eqb k' k then Some v else dict_lookup r k
  end.

(** [k in d]. *)
Definition dict_has {A : Type} (d : list (string * A)) (k : string) : bool :=
  match dict_lookup d k with Some _ => true | None => false end.

(** Truth value of an object ([if value:]). *)
Definition truthy (v : pyval) : bool :=
  match v with
  | PNone => false
  | PBool b => b
  | PInt n => negb (n =? 0)
  | PStr s => negb (is_empty s)
  | PList l => match l with [] => false | _ => true end
  | PDict d => match d with [] => false | _ => true end
  end.

(** [type(v).__name__]. *)
Definition type_name (v : pyval) : string :=
  match v with
  | PNone => "NoneType"
  | PBool _ => "bool"
  | PInt _ => "int"
  | PStr _ => "str"
  | PList _ => "list"
  | PDict _ => "dict"
  end.

Definition hex_digit (n : N) : ascii :=
  if (n <? 10)%N then ascii_of_N (48 + n) else ascii_of_N (87 + n).

Definition hex2 (n : N) : string :=
  String (hex_digit (n / 16)) (String (hex_digit (n mod 16)) EmptyString).

(** One character inside [repr] of a [str] quoted with [q]. *)
Definition repr_char (q c : ascii) : string :=
  let n := code c in
  if char_eqb c q || char_eqb c backslash then String backslash (chr c)
  else if (n =? 9)%N then String backslash "t"
  else if (n =? 10)%N then String backslash "n"
  else if (n =? 13)%N then String backslash "r"
  else if ((n <? 32) || ((127 <=? n) && (n <=? 160)) || (n =? 173))%N
       then String backslash ("x" +:+ hex2 n)
  else chr c.

Fixpoint repr_chars (q : ascii) (s : string) : string :=
  match s with
  | EmptyString => EmptyString
  | String c t => repr_char q c +:+ repr_chars q t
  end.

(** [repr] of a [str]: single quotes unless the text has one and no double quote. *)
Definition repr_str (s : string) : string :=
  let q := if mem_char squote s && negb (mem_char dquote s) then dquote else squote in
  String q (repr_chars q s +:+ chr q).

Fixpoint py_repr (v : pyval) : string :=
  match v with
  | PNone => "None"
  | PBool true => "True"
  | PBool false => "False"
  | PInt n => pretty n
  | PStr s => repr_str s
  | PList l => "[" +:+ join ", " (map py_repr l) +:+ "]"
  | PDict d =>
      "{" +:+ join ", " (map (fun kv => match kv with
                                        | (k, x) => repr_str k +:+ ": " +:+ py_repr x
                                        end) d) +:+ "}"
  end.

(** [str(v)]. *)
Definition py_str (v : pyval) : string :=
  match v with
  | PStr s => s
  | _ => py_repr v
  end.

(** *** Exceptions and outcomes *)

Inductive exn_kind : Type :=
| KeyError | IndexError | ValueError | AttributeError | TypeError | RecursionError
| HTTPStatusError | TransportError.

(** An exception object: its class and [str(e)]. *)
Record pyexn : Type := Exn { exn_class : exn_kind; exn_text : string }.

Inductive outcome (A : Type) : Type :=
| Ret (a : A)
| Raise (e : pyexn).
Arguments Ret {A} a.
Arguments Raise {A} e.

Definition obind {A B} (m : outcome A) (f : A -> outcome B) : outcome B :=
  match m with
  | Ret a => f a
  | Raise e => Raise e
  end.

Definition omap {A B} (f : A -> B) (m : outcome A) : outcome B :=
  obind m (fun a => Ret (f a)).

(** Evaluate [f] on the items in order, stopping at the first exception. *)
Definition omapM {A B} (f : A -> outcome B) : list A -> outcome (list B) :=
  fix go (l : list A) : outcome (list B) :=
    match l with
    | [] => Ret []
    | x :: r => obind (f x) (fun y => omap (cons y) (go r))
    end.

Definition no_attribute (v : pyval) (attr : string) : pyexn :=
  Exn AttributeError
      (chr squote +:+ type_name v +:+ "' object has no attribute '" +:+ attr +:+ chr squote).

(** [obj.get(key, default)]: a [dict] method; any other object of the model
    has no attribute [get]. *)
Definition py_get (obj : pyval) (key : string) (default : pyval) : outcome pyval :=
  match obj with
  | PDict d => Ret (match dict_lookup d key with Some v => v | None => default end)
  | _ => Raise (no_attribute obj "get")
  end.

(** [obj[key]]. *)
Definition py_getitem (obj : pyval) (key : string) : outcome pyval :=
  match obj with
  | PDict d =>
      match dict_lookup d key with
      | Some v => Ret v
      | None => Raise (Exn KeyError (repr_str key))
      end
  | _ =>
      Raise (Exn TypeError
                 (chr squote +:+ type_name obj +:+ "' object is not subscriptable"))
  end.

(** [obj == text] for a text literal on the right. *)
Definition py_eq_text (obj : pyval) (text : string) : bool :=
  match obj with
  | PStr s => String.eqb s text
  | _ => false
  end.

(** [len(obj)]. *)
Definition py_len (obj : pyval) : outcome nat :=
  match obj with
  | PStr s => Ret (String.length s)
  | PList l => Ret (length l)
  | PDict d => Ret (length d)
  | _ =>
      Raise (Exn TypeError
                 ("object of type '" +:+ type_name obj +:+ "' has no len()"))
  end.

(** [obj + text] for a text on the right. *)
Definition py_add_text (obj : pyval) (text : string) : outcome pyval :=
  match obj with
  | PStr s => Ret (PStr (s +:+ text))
  | PList _ =>
      Raise (Exn TypeError
                 ("can only concatenate list (not " +:+ chr dquote +:+ "str"
                  +:+ chr dquote +:+ ") to list"))
  | _ =>
      Raise (Exn TypeError
                 ("unsupported operand type(s) for +: '" +:+ type_name obj
                  +:+ "' and 'str'"))
  end.

(** [a or b]. *)
Definition py_or (a b : pyval) : pyval := if truthy a then a else b.

(** *** The limits of a conversion to text *)

(** [sys.int_info.default_max_str_digits]. *)
Definition int_max_str_digits : Z := 4300.

(** An int is written in decimal when it has at most that many digits,
    the sign apart. *)
Definition int_fits (n : Z) : bool := Z.abs n <? 10 ^ int_max_str_digits.

Definition int_text_error : pyexn :=
  Exn ValueError
      "Exceeds the limit (4300 digits) for integer string conversion; use sys.set_int_max_str_digits() to increase the limit".

Definition recursion_error : pyexn :=
  Exn RecursionError "maximum recursion depth exceeded while getting the repr of an object".

Fixpoint first_fault (faults : list (option pyexn)) : option pyexn :=
  match faults with
  | [] => None
  | Some e :: _ => Some e
  | None :: rest => first_fault rest
  end.

(** The exception that [str], [repr], [format] or [print] raises on an
    object, if any.  The items of a container are converted from left to
    right, each one level deeper; [room] is the number of container levels
    that the recursion limit leaves below the outermost object. *)
Fixpoint text_fault (room : nat) (v : pyval) {struct v} : option pyexn :=
  match v with
  | PNone | PBool _ | PStr _ => None
  | PInt n => if int_fits n then None else Some int_text_error
  | PList l =>
      match l, room with
      | [], _ => None
      | _ :: _, O => Some recursion_error
      | _ :: _, S deeper => first_fault (map (text_fault deeper) l)
      end
  | PDict d =>
      match d, room with
      | [], _ => None
      | _ :: _, O => Some recursion_error
      | _ :: _, S deeper =>
          first_fault (map (fun kv => match kv with (_, x) => text_fault deeper x end) d)
      end
  end.

End Py.

Import Py.

(** ** What the repository takes from its libraries and its environment *)

(** What [await client.post(...)] brings back: a response, or an exception
    of the transport. *)
Inductive http_outcome : Type :=
| HttpResponse (status_code : Z) (text : string)
| HttpFailure (e : pyexn).

(** - [json_loads line] is [json.loads]; [None] stands for [JSONDecodeError].
    - [format_field_ext context obj rest conv spec] renders a replacement
      field of [str.format] that has attribute or index accessors ([rest]),
      a conversion ([!r]) or a format specification ([:>8]).
    - [http_post url json] is the remote service.
    - [status_error_text code] is the text of the [HTTPStatusError] that
      [raise_for_status] builds.
    - [nesting_room] is what the recursion limit leaves to a conversion to
      text at the places where the program converts one: the number of
      container levels an object may have beyond the two levels of the
      payloads and argument mappings that the program builds itself.
    - [json_loads_text]: what [json.loads] returns has a text form.  It
      reads an int through the conversion that has the 4300 digit limit
      and nests its result under the same recursion limit, from deeper in
      the stack than any conversion to text of the program.  This is why
      the log records that quote a decoded chunk are built without an
      exception. *)
Class Runtime : Type := {
  json_loads : string -> option pyval;
  format_field_ext : pydict -> pyval -> string -> option ascii -> string -> outcome string;
  http_post : string -> pyval -> http_outcome;
  status_error_text : Z -> string;
  nesting_room : nat;
  json_loads_text :
    forall line v, json_loads line = Some v -> text_fault (S (S nesting_room)) v = None
}.

(** ** Conversions to text in this runtime *)
Section Text.
Context `{Runtime}.

Definition room : nat := S (S nesting_room).

(** The object has a text form: converting it raises nothing. *)
Definition has_text (v : pyval) : bool :=
  match text_fault room v with None => true | Some _ => false end.

(** [str(v)], and [v] inside an f-string, a [format] field or [print]. *)
Definition to_text (v : pyval) : outcome string :=
  match text_fault room v with
  | None => Ret (py_str v)
  | Some e => Raise e
  end.

(** Every value of the mapping has a text form. *)
Definition values_have_text (d : pydict) : bool := forallb (fun kv => has_text kv.2) d.

End Text.

(** ** [str.format] called with the context as keyword arguments *)
Module Format.

(** Where the scanner of CPython's [MarkupIterator_next] / [parse_field]
    stands: in literal text, in a field name, between [[] and []] of a field
    name, right after [!], after the conversion character, or inside the
    format specification at brace depth [depth]. *)
Inductive fmode : Type :=
| MLit
| MName (name : string)
| MBracket (name : string)
| MConv (name : string)
| MConv2 (name : string) (conv : ascii)
| MSpec (name : string) (conv : option ascii) (spec : string) (depth : nat).

Definition snoc (s : string) (c : ascii) : string := s +:+ chr c.

Definition is_accessor (c : ascii) : bool := char_eqb c "."%char || char_eqb c "["%char.

(** [field_name_split]: the part before the first [.] or [[], and the rest. *)
Fixpoint field_name_split (name : string) : string * string :=
  match name with
  | EmptyString => (EmptyString, EmptyString)
  | String c t =>
      if is_accessor c then (EmptyString, name)
      else let (first, rest) := field_name_split t in (String c first, rest)
  end.

Definition is_digit (c : ascii) : bool := ((48 <=? code c) && (code c <=? 57))%N.

Fixpoint all_digits (s : string) : bool :=
  match s with
  | EmptyString => true
  | String c t => is_digit c && all_digits t
  end.

Fixpoint decimal_value_from (acc : N) (s : string) : N :=
  match s with
  | EmptyString => acc
  | String c t => decimal_value_from (acc * 10 + (code c - 48))%N t
  end.

Definition PY_SSIZE_T_MAX : N := 9223372036854775807%N.

Definition out_of_range (index : N) : pyexn :=
  Exn IndexError
      ("Replacement index " +:+ pretty index +:+ " out of range for positional args tuple").

(** [get_field_object] for a call with keyword arguments only: an empty or
    numeric name indexes the (empty) positional arguments. *)
Definition get_field (context : pydict) (first : string) : outcome pyval :=
  if is_empty first then Raise (out_of_range 0)
  else if all_digits first then
    let index := decimal_value_from 0 first in
    if (PY_SSIZE_T_MAX <? index)%N
    then Raise (Exn ValueError "Too many decimal digits in format string")
    else Raise (out_of_range index)
  else match dict_lookup context first with
       | Some obj => Ret obj
       | None => Raise (Exn KeyError (repr_str first))
       end.

Section Scanner.
Context `{Runtime}.
Variable context : pydict.

Definition render_field (name : string) (conv : option ascii) (spec : string)
  : outcome string :=
  let (first, rest) := field_name_split name in
  obind (get_field context first) (fun obj =>
    match rest, conv, spec with
    | EmptyString, None, EmptyString => to_text obj
    | _, _, _ => format_field_ext context obj rest conv spec
    end).

Fixpoint scan (s : string) (m : fmode) : outcome string :=
  match s with
  | EmptyString =>
      match m with
      | MLit => Ret EmptyString
      | MName _ | MBracket _ =>
          Raise (Exn ValueError "expected '}' before end of string")
      | MConv _ =>
          Raise (Exn ValueError "end of string while looking for conversion specifier")
      | MConv2 _ _ | MSpec _ _ _ _ =>
          Raise (Exn ValueError "unmatched '{' in format spec")
      end
  | String c t =>
      match m with
      | MLit =>
          if char_eqb c "{"%char then
            match t with
            | EmptyString =>
                Raise (Exn ValueError "Single '{' encountered in format string")
            | String c' t' =>
                if char_eqb c' "{"%char then omap (String c) (scan t' MLit)
                else scan t (MName EmptyString)
            end
          else if char_eqb c "}"%char then
            match t with
            | EmptyString =>
                Raise (Exn ValueError "Single '}' encountered in format string")
            | String c' t' =>
                if char_eqb c' "}"%char then omap (String c) (scan t' MLit)
                else Raise (Exn ValueError "Single '}' encountered in format string")
            end
          else omap (String c) (scan t MLit)
      | MName name =>
          if char_eqb c "{"%char then
            Raise (Exn ValueError "unexpected '{' in field name")
          else if char_eqb c "["%char then scan t (MBracket (snoc name c))
          else if char_eqb c "}"%char then
            obind (render_field name None EmptyString)
                  (fun r => omap (String.append r) (scan t MLit))
          else if char_eqb c ":"%char then scan t (MSpec name None EmptyString 1)
          else if char_eqb c "!"%char then scan t (MConv name)
          else scan t (MName (snoc name c))
      | MBracket name =>
          if char_eqb c "]"%char then scan t (MName (snoc name c))
          else scan t (MBracket (snoc name c))
      | MConv name => scan t (MConv2 name c)
      | MConv2 name conv =>
          if char_eqb c "}"%char then
            obind (render_field name (Some conv) EmptyString)
                  (fun r => omap (String.append r) (scan t MLit))
          else if char_eqb c ":"%char then scan t (MSpec name (Some conv) EmptyString 1)
          else Raise (Exn ValueError "expected ':' after conversion specifier")
      | MSpec name conv spec depth =>
          if char_eqb c "{"%char then scan t (MSpec name conv (snoc spec c) (S depth))
          else if char_eqb c "}"%char then
            match depth with
            | S (S d) => scan t (MSpec name conv (snoc spec c) (S d))
            | _ =>
                obind (render_field name conv spec)
                      (fun r => omap (String.append r) (scan t MLit))
            end
          else scan t (MSpec name conv (snoc spec c) depth)
      end
  end.

(** [template.format] applied to the unpacked [context]. *)
Definition py_format (template : string) : outcome string := scan template MLit.

End Scanner.
End Format.

(** ** tools.py *)
Module Tools.

Record tool_config : Type := {
  description : string;
  payload_template : pyval;
  api_url : string;
  async : bool
}.

Definition inputs_template (fields : pydict) : pyval :=
  PDict [("inputs", PDict fields); ("version", PStr "^1.0")].

Definition TOOL_CONFIG : list (string * tool_config) :=
  [ ("notion_page",
     {| description := "Creates a Notion page using the Wordware API";
        payload_template :=
          inputs_template [("title", PStr "{title}"); ("body", PStr "{body}")];
        api_url := "https://app.wordware.ai/api/released-app/aaa61129-de55-49a7-b6cc-e9a7b184cd96/run";
        async := true |});
    ("google_search",
     {| description := "Searches Google using a Wordware-powered tool";
        payload_template := inputs_template [("query", PStr "{query}")];
        api_url := "https://app.wordware.ai/api/released-app/6e7817c6-5f67-4905-ab5b-18f28c333637/run";
        async := true |});
    ("wikipedia_lookup",
     {| description := "Fetches information from Wikipedia based on a term";
        payload_template := inputs_template [("term", PStr "{term}")];
        api_url := "https://app.wordware.ai/api/released-app/4d4b0a16-d62b-4ec2-a43d-ac8c1ee18de8/run";
        async := true |});
    ("google_news",
     {| description := "Gets the latest news using Google News";
        payload_template := inputs_template [("news", PStr "{news}")];
        api_url := "https://app.wordware.ai/api/released-app/8e468bc7-f612-4e0b-a2c5-4451c03e16c1/run";
        async := true |}) ].

End Tools.

(** ** The job store and the body shared by the two background coroutines *)
Module Jobs.

Inductive job_status : Type := Pending | Processing | Complete | Failed.

(** The text stored under ["status"]. *)
Definition status_text (s : job_status) : string :=
  match s with
  | Pending => "pending"
  | Processing => "processing"
  | Complete => "complete"
  | Failed => "error"
  end.

(** One entry of [jobs]: the dict with keys [status], [result], [error];
    [PNone] is Python's [None]. *)
Record job : Type := Job { status : job_status; result : pyval; error : pyval }.

Definition new_job : job := Job Pending PNone PNone.

Record request : Type := Request { req_url : string; req_json : pyval }.

(** Where a background coroutine stands.  Both [_background_run] and
    [background_create_page] are
    [try: status = processing; work; status = complete; result = r
     except Exception as e: status = error; error = str(e)]. *)
Inductive pc : Type :=
| AtStart
| AtWork
| Awaiting
| AtComplete (r : pyval)
| AtResult (r : pyval)
| AtFailed (e : pyexn)
| AtErrorText (e : pyexn).

(** A scheduled coroutine: the job it was created for, its work up to the
    request ([prepare]) and from the response on ([finish]), and its
    position. *)
Record task : Type := Task {
  task_job : string;
  prepare : outcome request;
  finish : http_outcome -> outcome pyval;
  at_pc : pc
}.

(** [stdout] is the text written to standard output so far. *)
Record world : Type := World {
  jobs : gmap string job;
  tasks : list task;
  sent : list request;
  stdout : string
}.

Definition empty_world : world := World ∅ [] [] EmptyString.

(** A request is handed to the HTTP client. *)
Definition send (req : request) (w : world) : world :=
  World (jobs w) (tasks w) (sent w ++ [req]) (stdout w).

(** Text goes to standard output as it is. *)
Definition write (text : string) (w : world) : world :=
  World (jobs w) (tasks w) (sent w) (stdout w +:+ text).

(** [print(text)]: the text and a line break. *)
Definition print (text : string) (w : world) : world := write (text +:+ chr newline) w.

(** [jobs[job_id][field] = value]: a [KeyError] when the id is unknown. *)
Definition assign (update : job -> job) (job_id : string) (store : gmap string job)
  : outcome (gmap string job) :=
  match store !! job_id with
  | Some j => Ret (<[job_id := update j]> store)
  | None => Raise (Exn KeyError (repr_str job_id))
  end.

Definition set_status (s : job_status) (j : job) : job := Job s (result j) (error j).
Definition set_result (r : pyval) (j : job) : job := Job (status j) r (error j).
Definition set_error (e : pyval) (j : job) : job := Job (status j) (result j) e.

Definition move (t : task) (p : pc) : task :=
  Task (task_job t) (prepare t) (finish t) p.

(** One statement of the coroutine [t]; [o] is what the awaited request
    brings back (looked at only in [Awaiting]).  The result is the new
    store, the requests sent, and the coroutine if it is still running. *)
Definition task_step (t : task) (o : http_outcome) (store : gmap string job)
  : gmap string job * list request * option task :=
  match at_pc t with
  | AtStart =>
      match assign (set_status Processing) (task_job t) store with
      | Ret store' => (store', [], Some (move t AtWork))
      | Raise e => (store, [], Some (move t (AtFailed e)))
      end
  | AtWork =>
      match prepare t with
      | Ret req => (store, [req], Some (move t Awaiting))
      | Raise e => (store, [], Some (move t (AtFailed e)))
      end
  | Awaiting =>
      match finish t o with
      | Ret r => (store, [], Some (move t (AtComplete r)))
      | Raise e => (store, [], Some (move t (AtFailed e)))
      end
  | AtComplete r =>
      match assign (set_status Complete) (task_job t) store with
      | Ret store' => (store', [], Some (move t (AtResult r)))
      | Raise e => (store, [], Some (move t (AtFailed e)))
      end
  | AtResult r =>
      match assign (set_result r) (task_job t) store with
      | Ret store' => (store', [], None)
      | Raise e => (store, [], Some (move t (AtFailed e)))
      end
  | AtFailed e =>
      match assign (set_status Failed) (task_job t) store with
      | Ret store' => (store', [], Some (move t (AtErrorText e)))
      | Raise _ => (store, [], None)
      end
  | AtErrorText e =>
      match assign (set_error (PStr (exn_text e))) (task_job t) store with
      | Ret store' => (store', [], None)
      | Raise _ => (store, [], None)
      end
  end.

(** [jobs[job_id] = {status: pending, result: None, error: None}]. *)
Definition store_job (job_id : string) (w : world) : world :=
  World (<[job_id := new_job]> (jobs w)) (tasks w) (sent w) (stdout w).

(** [asyncio.create_task(coroutine)]. *)
Definition create_task (t : task) (w : world) : world :=
  World (jobs w) (tasks w ++ [t]) (sent w) (stdout w).

(** What the caller of an asynchronous tool gets back. *)
Definition job_handle (job_id : string) : pyval :=
  PDict [("job_id", PStr job_id); ("status", PStr (status_text Pending))].

(** The job is stored, its coroutine is scheduled, and the handle is
    returned, without a suspension point in between. *)
Definition start_job (job_id : string) (prep : outcome request)
    (fin : http_outcome -> outcome pyval) (w : world) : pyval * world :=
  (job_handle job_id, create_task (Task job_id prep fin AtStart) (store_job job_id w)).

(** The dict a job is seen as by [get_job_status]. *)
Definition job_view (j : job) : pyval :=
  PDict [("status", PStr (status_text (status j)));
         ("result", result j); ("error", error j)].

(** [get_dynamic_job_status] / [get_job_status]. *)
Definition get_job_status (job_id : string) (w : world) : pyval :=
  match jobs w !! job_id with
  | None => PDict [("error", PStr "Invalid job ID")]
  | Some j => job_view j
  end.

(** The world after the coroutine [t], scheduled between [before] and
    [after], has run one statement. *)
Definition resume (before : list task) (t : task) (after : list task)
    (o : http_outcome) (w : world) : world :=
  let '(store, reqs, t') := task_step t o (jobs w) in
  World store (before ++ option_list t' ++ after) (sent w ++ reqs) (stdout w).

(** The event loop: a caller starts a job under an id that [uuid4] has not
    handed out before (or stores it and fails before its coroutine is
    scheduled), or some scheduled coroutine runs its next statement. *)
Inductive step : world -> world -> Prop :=
| step_start w job_id prep fin :
    jobs w !! job_id = None ->
    step w (start_job job_id prep fin w).2
| step_stored w job_id :
    jobs w !! job_id = None ->
    step w (store_job job_id w)
| step_task w before t after o :
    tasks w = before ++ t :: after ->
    step w (resume before t after o w).

Definition reachable (w : world) : Prop := rtc step empty_world w.

(** The edges of the life cycle. *)
Definition edge (a b : job_status) : bool :=
  match a, b with
  | Pending, Processing | Processing, Complete | Processing, Failed => true
  | _, _ => false
  end.

(** [b] is [a] or lies ahead of it. *)
Definition ahead (a b : job_status) : bool :=
  match a, b with
  | Pending, _ => true
  | Processing, Pending => false
  | Processing, _ => true
  | Complete, Complete => true
  | Failed, Failed => true
  | _, _ => false
  end.

Definition settled (s : job_status) : bool :=
  match s with Complete | Failed => true | _ => false end.

(** The coroutine [t] run from where it stands to its end with nothing
    scheduled in between, as when it is awaited; [o] is what its request
    brings back.  The result is the store it leaves and the requests it
    sent.  Seven statements are the longest path through the body. *)
Fixpoint run_alone (fuel : nat) (t : task) (o : http_outcome) (store : gmap string job)
  : gmap string job * list request :=
  match fuel with
  | O => (store, [])
  | S fuel' =>
      let '(store', reqs, t') := task_step t o store in
      match t' with
      | None => (store', reqs)
      | Some u =>
          let '(store'', reqs') := run_alone fuel' u o store' in
          (store'', reqs ++ reqs')
      end
  end.

End Jobs.

(** ** The scan of a streaming response, shared by the three clients *)
Module Stream.
Section Stream.
Context `{Runtime}.

(** The body of the loop for one non-blank line: [Ret (Some r)] is
    [return r], [Ret None] goes on to the next line (no match, or a
    [JSONDecodeError] that the loop catches), and any other exception
    leaves the loop. *)
Definition check_line (line : string) : outcome (option pyval) :=
  match json_loads line with
  | None => Ret None
  | Some chunk =>
      obind (py_get chunk "type" PNone) (fun ty =>
      if negb (py_eq_text ty "chunk") then Ret None else
      obind (py_get chunk "value" (PDict [])) (fun value =>
      obind (py_get value "type" PNone) (fun vty =>
      if negb (py_eq_text vty "code") then Ret None else
      obind (py_get chunk "value" (PDict [])) (fun value' =>
      obind (py_get value' "output" PNone) (fun output =>
      if negb (truthy output) then Ret None else
      obind (py_getitem chunk "value") (fun value'' =>
      omap Some (py_getitem value'' "output")))))))
  end.

(** [for line in lines: if line.strip(): ...] and the [return] after it. *)
Fixpoint scan_lines (not_found : string) (lines : list string) : outcome pyval :=
  match lines with
  | [] => Ret (PStr not_found)
  | line :: rest =>
      if is_empty (strip line) then scan_lines not_found rest
      else match check_line line with
           | Raise e => Raise e
           | Ret (Some r) => Ret r
           | Ret None => scan_lines not_found rest
           end
  end.

End Stream.
End Stream.

(** ** ReActTool.py *)
Module ReActTool.
Import Jobs.

Record DynamicWordwareTool : Type := {
  description : string;
  payload_template : pyval;
  api_url : string;
  use_async : bool
}.

(** [DynamicWordwareTool.__init__].  The fixed headers are not represented,
    and neither are the two log records, which quote the entries of the
    fixed table when the module is loaded. *)
Definition init (config : Tools.tool_config) : DynamicWordwareTool :=
  {| description := Tools.description config;
     payload_template := Tools.payload_template config;
     api_url := Tools.api_url config;
     use_async := Tools.async config |}.

(** [dynamic_tools], filled from [TOOL_CONFIG] when the module is loaded. *)
Definition dynamic_tools : list (string * DynamicWordwareTool) :=
  map (fun entry => (entry.1, init entry.2)) Tools.TOOL_CONFIG.

Section WithRuntime.
Context `{Runtime}.

Fixpoint render_template (template : pyval) (context : pydict) : outcome pyval :=
  match template with
  | PStr s =>
      match Format.py_format context s with
      | Ret rendered => Ret (PStr rendered)
      | Raise e =>
          match exn_class e with
          | KeyError => Ret template
          | _ => Raise e
          end
      end
  | PDict d =>
      omap PDict
           (omapM (fun kv => match kv with
                             | (k, v) => omap (pair k) (render_template v context)
                             end) d)
  | PList l => omap PList (omapM (fun item => render_template item context) l)
  | _ => Ret template
  end.

(** [render_payload]: the log record quotes the keyword arguments and then
    the rendered payload; what is raised on the way is raised again. *)
Definition render_payload (self : DynamicWordwareTool) (kwargs : pydict) : outcome pyval :=
  obind (render_template (payload_template self) kwargs) (fun rendered =>
  obind (to_text (PDict kwargs)) (fun _ =>
  obind (to_text rendered) (fun _ => Ret rendered))).

Definition process_response (response_text : string) : outcome pyval :=
  Stream.scan_lines "No output found" (split newline response_text).

(** [call_api] from the moment the request comes back: this part of the
    body is inside [try ... except Exception], so it always returns. *)
Definition call_api_finish (o : http_outcome) : pyval :=
  match o with
  | HttpFailure e => PStr ("API call failed with error: " +:+ exn_text e)
  | HttpResponse status_code text =>
      if negb (status_code =? 200) then
        PStr ("API call failed with status " +:+ pretty status_code +:+ ": " +:+ text)
      else match process_response text with
           | Ret r => r
           | Raise e => PStr ("API call failed with error: " +:+ exn_text e)
           end
  end.

(** [call_api] up to the request: the log record that quotes the payload is
    built before the [try]. *)
Definition call_api_request (self : DynamicWordwareTool) (payload : pyval) : outcome request :=
  omap (fun _ => Request (api_url self) payload) (to_text payload).

Definition call_api (self : DynamicWordwareTool) (payload : pyval) (w : world)
  : outcome pyval * world :=
  match call_api_request self payload with
  | Raise e => (Raise e, w)
  | Ret req => (Ret (call_api_finish (http_post (req_url req) (req_json req))), send req w)
  end.

(** What [run] returns from its [except Exception]. *)
Definition run_failed (e : pyexn) : pyval := PStr ("Tool run failed: " +:+ exn_text e).

(** [run]: inside the [try], the first log record quotes the keyword
    arguments and the last one the result. *)
Definition run (self : DynamicWordwareTool) (kwargs : pydict) (w : world)
  : pyval * world :=
  match to_text (PDict kwargs) with
  | Raise e => (run_failed e, w)
  | Ret _ =>
      match render_payload self kwargs with
      | Raise e => (run_failed e, w)
      | Ret payload =>
          match call_api self payload w with
          | (Raise e, w') => (run_failed e, w')
          | (Ret result, w') =>
              match to_text result with
              | Raise e => (run_failed e, w')
              | Ret _ => (result, w')
              end
          end
      end
  end.

(** [_background_run(job_id, **kwargs)] as a scheduled coroutine. *)
Definition _background_run (self : DynamicWordwareTool) (job_id : string)
    (kwargs : pydict) : task :=
  Task job_id
       (obind (render_payload self kwargs) (call_api_request self))
       (fun o => Ret (call_api_finish o))
       AtStart.

(** [run_async]; [job_id] is the value of [str(uuid.uuid4())].  A keyword
    named [self] collides with the receiver before the body runs; one named
    [job_id] collides when the coroutine is created, after the job has been
    stored. *)
Definition run_async (self : DynamicWordwareTool) (job_id : string)
    (kwargs : pydict) (w : world) : outcome pyval * world :=
  if dict_has kwargs "self" then
    (Raise (Exn TypeError
              "DynamicWordwareTool.run_async() got multiple values for argument 'self'"),
     w)
  else if dict_has kwargs "job_id" then
    (Raise (Exn TypeError
              "DynamicWordwareTool._background_run() got multiple values for argument 'job_id'"),
     store_job job_id w)
  else
    let t := _background_run self job_id kwargs in
    let (handle, w') := start_job job_id (prepare t) (finish t) w in
    (Ret handle, w').

Definition get_dynamic_job_status (job_id : string) (w : world) : pyval :=
  get_job_status job_id w.

Definition additional_info : string := " [Finalized after multi-step processing]".

(** A line of output. *)
Definition out_line (text : string) : string := text +:+ chr newline.

(** The two thoughts that [react_agent] prints. *)
Definition thoughts : string :=
  out_line "ReAct Agent: A matching Wordware tool was used."
  +:+ out_line "ReAct Agent: Reviewing the initial output to decide if further processing is needed.".

(** [react_agent]: what it writes to standard output, and what it returns
    or raises.  [print] with two arguments writes the first one and the
    separator before it converts the second. *)
Definition react_agent_run (user_command : string) (title body initial_result : pyval)
  : string * outcome pyval :=
  let received := out_line ("ReAct Agent: Received command: " +:+ user_command) in
  let label := "ReAct Agent: Initial tool result: " in
  match (if truthy initial_result then omap (fun shown => out_line (label +:+ shown))
                                            (to_text initial_result)
         else Ret EmptyString) with
  | Raise e => (received +:+ label, Raise e)
  | Ret shown =>
      let written := received +:+ shown +:+ thoughts in
      match (if contains "multi-step" (lower user_command) then Ret true
             else omap (fun n => 100 <? n)%nat (py_len body)) with
      | Raise e => (written, Raise e)
      | Ret true =>
          let written' :=
            written
            +:+ out_line "ReAct Agent: Additional processing required. Executing further steps..." in
          match py_add_text (py_or initial_result (PStr "")) additional_info with
          | Raise e => (written', Raise e)
          | Ret final_result =>
              (written'
               +:+ out_line ("ReAct Agent: Final result after additional processing: "
                         +:+ py_str final_result),
               Ret final_result)
          end
      | Ret false =>
          (written
           +:+ out_line "ReAct Agent: No further processing needed. Returning the initial result.",
           Ret (py_or initial_result (PStr "No result from tool.")))
      end
  end.

(** What [react_agent] returns or raises. *)
Definition react_agent (user_command : string) (title body initial_result : pyval)
  : outcome pyval :=
  (react_agent_run user_command title body initial_result).2.

Definition call_error (text : string) : pyexn := Exn TypeError ("react_agent() " +:+ text).

Definition quoted (name : string) : string := chr squote +:+ name +:+ chr squote.

(** The first keyword of [kwargs] that [react_agent] cannot take next to the
    positional [user_command] and the explicit [initial_result]. *)
Fixpoint bad_keyword (kwargs : pydict) : option pyexn :=
  match kwargs with
  | [] => None
  | (k, _) :: r =>
      if String.eqb k "title" || String.eqb k "body" then bad_keyword r
      else if String.eqb k "user_command" then
        Some (call_error ("got multiple values for argument " +:+ quoted k))
      else Some (call_error ("got an unexpected keyword argument " +:+ quoted k))
  end.

(** [react_agent(user_command, **processed_inputs, initial_result=...)]:
    the binding of the arguments, which writes nothing, then the call. *)
Definition call_react_agent (user_command : string) (processed_inputs : pydict)
    (initial_result : pyval) : string * outcome pyval :=
  if dict_has processed_inputs "initial_result" then
    (EmptyString,
     Raise (Exn TypeError
                 "__main__.react_agent() got multiple values for keyword argument 'initial_result'"))
  else match bad_keyword processed_inputs with
  | Some e => (EmptyString, Raise e)
  | None =>
      match dict_lookup processed_inputs "title", dict_lookup processed_inputs "body" with
      | Some title, Some body => react_agent_run user_command title body initial_result
      | None, Some _ =>
          (EmptyString, Raise (call_error "missing 1 required positional argument: 'title'"))
      | Some _, None =>
          (EmptyString, Raise (call_error "missing 1 required positional argument: 'body'"))
      | None, None =>
          (EmptyString,
           Raise (call_error "missing 2 required positional arguments: 'title' and 'body'"))
      end
  end.

(** [" ".join(parts)] where [parts] collects [str(value)] for the truthy
    values whose key is kept, in the order of the arguments. *)
Definition join_values (keep : string -> bool) (inputs : pydict) : outcome string :=
  omap (join " ")
       (omapM (fun kv => to_text kv.2)
              (filter (fun kv => truthy kv.2 && keep kv.1 = true) inputs)).

Definition is_search_tool (tool : string) : bool :=
  String.eqb tool "google_search" || String.eqb tool "wikipedia_lookup".

Definition reserved_key (key : string) : bool :=
  String.eqb key "user_command" || String.eqb key "tool".

(** The block of [handle_user_request] that fills [processed_inputs]. *)
Definition normalize_inputs (tool : string) (inputs : pydict) : outcome pydict :=
  if is_search_tool tool then
    omap (fun query => [("query", PStr query)]) (join_values (fun _ => true) inputs)
  else if String.eqb tool "google_news" then
    omap (fun news => [("news", PStr news)])
         (join_values (fun key => negb (reserved_key key)) inputs)
  else if String.eqb tool "notion_page" then
    let nested := match dict_lookup inputs "inputs" with Some v => v | None => PNone end in
    obind (py_get nested "title" (PStr "example title")) (fun title =>
    obind (py_get nested "body" (PStr "example body")) (fun body =>
    Ret [("title", title); ("body", body)]))
  else Ret inputs.

(** [selected_tool.run] called with [processed_inputs] unpacked: a keyword named [self] collides
    with the bound method's receiver. *)
Definition call_run (self : DynamicWordwareTool) (processed_inputs : pydict) (w : world)
  : outcome pyval * world :=
  if dict_has processed_inputs "self" then
    (Raise (Exn TypeError "DynamicWordwareTool.run() got multiple values for argument 'self'"), w)
  else let (r, w') := run self processed_inputs w in (Ret r, w').

(** [handle_user_request].  The third [print] and the one before the tool
    runs quote the arguments in an f-string, which is built before anything
    is written; the log records in between quote the same objects. *)
Definition handle_user_request (user_command tool : string) (inputs : pydict) (w : world)
  : outcome pyval * world :=
  let w1 := print ("handle_user_request: Received user command: " +:+ user_command) w in
  let w2 := print ("handle_user_request: Claude selected tool '" +:+ tool +:+ "'") w1 in
  match to_text (PDict inputs) with
  | Raise e => (Raise e, w2)
  | Ret raw =>
      let w3 := print ("handle_user_request: Raw inputs: " +:+ raw) w2 in
      match dict_lookup dynamic_tools tool with
      | None => (Ret (PStr ("Tool '" +:+ tool +:+ "' not available.")), w3)
      | Some selected_tool =>
          match normalize_inputs tool inputs with
          | Raise e => (Raise e, w3)
          | Ret processed_inputs =>
              match to_text (PDict processed_inputs) with
              | Raise e => (Raise e, w3)
              | Ret processed =>
                  let w4 :=
                    print ("handle_user_request: Running tool with processed inputs: "
                           +:+ processed) w3 in
                  match call_run selected_tool processed_inputs w4 with
                  | (Raise e, w') => (Raise e, w')
                  | (Ret initial_result, w') =>
                      if contains "multi-step" (lower user_command) then
                        let w5 :=
                          print "handle_user_request: Delegating to ReAct agent for additional processing..." w' in
                        let (written, final_result) :=
                          call_react_agent user_command processed_inputs initial_result in
                        (final_result, write written w5)
                      else
                        (Ret initial_result,
                         print "handle_user_request: Returning initial result without additional processing." w')
                  end
              end
          end
      end
  end.

End WithRuntime.
End ReActTool.

(** ** wordware_mcp.py *)
Module WordwareMcp.
Import Jobs.

Definition base_url : string :=
  "https://app.wordware.ai/api/released-app/aaa61129-de55-49a7-b6cc-e9a7b184cd96/run".

(** The character class of the pattern in [_clean_title]. *)
Definition special_chars : string := "<>:" +:+ chr dquote +:+ "/\|?*".

Definition is_special (c : ascii) : bool := mem_char c special_chars.

Definition _clean_title (title : string) : string :=
  if is_empty title then "Untitled"
  else
    let title1 := remove_chars is_special title in
    let title2 := strip title1 in
    if is_empty title2 then "Untitled" else take_prefix 100 title2.

Definition _clean_body (body : string) : string :=
  if is_empty body then EmptyString
  else
    let lines := split newline body in
    let cleaned_lines :=
      map rstrip (filter (fun line => is_empty (rstrip line) = false) lines) in
    join (chr newline) cleaned_lines.

Definition _validate_and_clean_input (title body : string) : string * string :=
  (_clean_title title, _clean_body body).

(** The [payload] dict of [make_request]. *)
Definition make_request_payload (title body version : string) : pyval :=
  let (cleaned_title, cleaned_body) := _validate_and_clean_input title body in
  PDict [("inputs", PDict [("title", PStr cleaned_title); ("body", PStr cleaned_body)]);
         ("version", PStr version)].

(** [Response.is_success]: [raise_for_status] returns for these codes only. *)
Definition is_success (status_code : Z) : bool :=
  (200 <=? status_code) && (status_code <=? 299).

Section WithRuntime.
Context `{Runtime}.

Definition _process_streaming_response (response_text : string) : outcome pyval :=
  Stream.scan_lines "No Notion page URL found in response" (split newline response_text).

(** [make_request] from the moment the request comes back. *)
Definition make_request_finish (o : http_outcome) : outcome pyval :=
  match o with
  | HttpFailure e => Raise e
  | HttpResponse status_code text =>
      if is_success status_code then _process_streaming_response text
      else Raise (Exn HTTPStatusError (status_error_text status_code))
  end.

Definition make_request (title body version : string) (w : world)
  : outcome pyval * world :=
  let payload := make_request_payload title body version in
  (make_request_finish (http_post base_url payload), send (Request base_url payload) w).

Definition text_or_empty (arg : option string) : string :=
  match arg with Some s => s | None => EmptyString end.

(** [any([title, body])]. *)
Definition any_given (title body : option string) : bool :=
  negb (is_empty (text_or_empty title)) || negb (is_empty (text_or_empty body)).

Definition missing_parameters : string :=
  "Please provide at least one parameter (title or body)".

Definition create_notion_page (title body : option string) (w : world) : pyval * world :=
  if negb (any_given title body) then (PStr missing_parameters, w)
  else match make_request (text_or_empty title) (text_or_empty body) "^1.0" w with
       | (Ret r, w') => (r, w')
       | (Raise e, w') => (PStr ("Failed to create Notion page: " +:+ exn_text e), w')
       end.

(** [background_create_page(job_id, title, body)] as a scheduled coroutine. *)
Definition background_create_page (job_id title body : string) : task :=
  Task job_id
       (Ret (Request base_url (make_request_payload title body "^1.0")))
       make_request_finish
       AtStart.

(** [create_notion_page_async]; [job_id] is the value of [str(uuid.uuid4())]. *)
Definition create_notion_page_async (title body : option string) (job_id : string)
    (w : world) : pyval * world :=
  if negb (any_given title body) then (PDict [("error", PStr missing_parameters)], w)
  else
    let t := background_create_page job_id (text_or_empty title) (text_or_empty body) in
    start_job job_id (prepare t) (finish t) w.

End WithRuntime.
End WordwareMcp.

(** ** wordware_api.py *)
Module WordwareApi.

Definition base_url : string :=
  "https://app.wordware.ai/api/released-app/aaa61129-de55-49a7-b6cc-e9a7b184cd96/run".

Section WithRuntime.
Context `{Runtime}.

Definition _process_streaming_response (response_text : string) : outcome pyval :=
  Stream.scan_lines "No Notion page URL found in response" (split newline response_text).

(** The [payload] dict of [make_request] and [make_request_sync]. *)
Definition make_request_payload (title body version : string) : pyval :=
  PDict [("inputs", PDict [("title", PStr title); ("body", PStr body)]);
         ("version", PStr version)].

(** [Response.is_success], as [raise_for_status] tests it. *)
Definition is_success (status_code : Z) : bool :=
  (200 <=? status_code) && (status_code <=? 299).

(** [make_request] and [make_request_sync] from the moment the request
    comes back: the two bodies differ in the client they open only.  What
    they print quotes the headers of the response and is not represented. *)
Definition make_request_finish (o : http_outcome) : outcome pyval :=
  match o with
  | HttpFailure e => Raise e
  | HttpResponse status_code text =>
      if is_success status_code then _process_streaming_response text
      else Raise (Exn HTTPStatusError (status_error_text status_code))
  end.

End WithRuntime.
End WordwareApi.

(** ** A concrete runtime for worked examples *)
Module Mini.

Definition json_space (c : ascii) : bool :=
  char_eqb c " "%char || (code c =? 9)%N || (code c =? 10)%N || (code c =? 13)%N.

Fixpoint skip_ws (s : string) : string :=
  match s with
  | String c t => if json_space c then skip_ws t else s
  | EmptyString => EmptyString
  end.

(** The text of a JSON string up to its closing quote, and what follows it;
    escapes and control characters are not accepted. *)
Fixpoint string_body (s : string) : option (string * string) :=
  match s with
  | EmptyString => None
  | String c t =>
      if char_eqb c dquote then Some (EmptyString, t)
      else if char_eqb c backslash || (code c <? 32)%N then None
      else match string_body t with
           | Some (body, rest) => Some (String c body, rest)
           | None => None
           end
  end.

Fixpoint digits (s : string) : string * string :=
  match s with
  | String c t =>
      if Format.is_digit c then let (d, rest) := digits t in (String c d, rest)
      else (EmptyString, s)
  | EmptyString => (EmptyString, EmptyString)
  end.

Definition starts_fraction (s : string) : bool :=
  match s with
  | String c _ => char_eqb c "."%char || char_eqb c "e"%char || char_eqb c "E"%char
  | EmptyString => false
  end.

(** An integer literal without sign: no leading zero, no fraction, no exponent. *)
Definition natural (s : string) : option (Z * string) :=
  let (d, rest) := digits s in
  match d with
  | EmptyString => None
  | String c d' =>
      if (char_eqb c "0"%char && negb (is_empty d')) || starts_fraction rest then None
      else Some (Z.of_N (Format.decimal_value_from 0 d), rest)
  end.

Fixpoint drop (n : nat) (s : string) : string :=
  match n, s with
  | S n', String _ t => drop n' t
  | _, _ => s
  end.

(** [d[k] = v]. *)
Fixpoint dict_set (d : pydict) (k : string) (v : pyval) : pydict :=
  match d with
  | [] => [(k, v)]
  | (k', v') :: r => if String.eqb k' k then (k', v) :: r else (k', v') :: dict_set r k v
  end.

(** One JSON value at the head of [s] (after white space) and the text that
    follows it.  [elements] and [members] read the rest of an array or an
    object after its first item. *)
Fixpoint value (fuel : nat) (s : string) : option (pyval * string) :=
  match fuel with
  | O => None
  | S fuel' =>
      match skip_ws s with
      | EmptyString => None
      | String c t as s' =>
          if startswith "null" s' then Some (PNone, drop 4 s')
          else if startswith "true" s' then Some (PBool true, drop 4 s')
          else if startswith "false" s' then Some (PBool false, drop 5 s')
          else if char_eqb c dquote then
            match string_body t with
            | Some (body, rest) => Some (PStr body, rest)
            | None => None
            end
          else if char_eqb c "-"%char then
            match natural t with
            | Some (n, rest) => Some (PInt (- n), rest)
            | None => None
            end
          else if Format.is_digit c then
            match natural s' with
            | Some (n, rest) => Some (PInt n, rest)
            | None => None
            end
          else if char_eqb c "["%char then
            match skip_ws t with
            | String c' t' =>
                if char_eqb c' "]"%char then Some (PList [], t')
                else match value fuel' t with
                     | Some (v, rest) =>
                         match elements fuel' rest with
                         | Some (vs, rest') => Some (PList (v :: vs), rest')
                         | None => None
                         end
                     | None => None
                     end
            | EmptyString => None
            end
          else if char_eqb c "{"%char then
            match skip_ws t with
            | String c' t' =>
                if char_eqb c' "}"%char then Some (PDict [], t')
                else match members fuel' [] t with
                     | Some (d, rest) => Some (PDict d, rest)
                     | None => None
                     end
            | EmptyString => None
            end
          else None
      end
  end
with elements (fuel : nat) (s : string) : option (list pyval * string) :=
  match fuel with
  | O => None
  | S fuel' =>
      match skip_ws s with
      | String c t =>
          if char_eqb c "]"%char then Some ([], t)
          else if char_eqb c ","%char then
            match value fuel' t with
            | Some (v, rest) =>
                match elements fuel' rest with
                | Some (vs, rest') => Some (v :: vs, rest')
                | None => None
                end
            | None => None
            end
          else None
      | EmptyString => None
      end
  end
with members (fuel : nat) (acc : pydict) (s : string) : option (pydict * string) :=
  match fuel with
  | O => None
  | S fuel' =>
      match skip_ws s with
      | String c t =>
          if char_eqb c dquote then
            match string_body t with
            | Some (key, rest) =>
                match skip_ws rest with
                | String c1 t1 =>
                    if char_eqb c1 ":"%char then
                      match value fuel' t1 with
                      | Some (v, rest1) =>
                          match skip_ws rest1 with
                          | String c2 t2 =>
                              if char_eqb c2 "}"%char then Some (dict_set acc key v, t2)
                              else if char_eqb c2 ","%char
                                   then members fuel' (dict_set acc key v) t2
                              else None
                          | EmptyString => None
                          end
                      | None => None
                      end
                    else None
                | EmptyString => None
                end
            | None => None
            end
          else None
      | EmptyString => None
      end
  end.

Definition parse (s : string) : option pyval :=
  match value (S (String.length s)) s with
  | Some (v, rest) => if is_empty (skip_ws rest) then Some v else None
  | None => None
  end.

(** The room of this runtime for nested containers. *)
Definition levels : nat := 8.

(** A decoder for the JSON documents made of [null], [true], [false],
    integers, strings without escapes, arrays and objects.  On these it
    returns what [json.loads] returns.  Documents with fractions, exponents
    or escapes, and documents whose value has no text form in this runtime,
    are outside its reach and are reported as undecodable, which is why no
    general statement below is about this decoder. *)
Definition loads (s : string) : option pyval :=
  match parse s with
  | Some v => match text_fault (S (S levels)) v with None => Some v | Some _ => None end
  | None => None
  end.

Definition jtext (s : string) : string := chr dquote +:+ s +:+ chr dquote.

(** The line [{"type": "chunk", "value": {"type": "code", "output": "<output>"}}]. *)
Definition code_chunk (output : string) : string :=
  "{" +:+ jtext "type" +:+ ": " +:+ jtext "chunk" +:+ ", " +:+ jtext "value" +:+ ": {"
  +:+ jtext "type" +:+ ": " +:+ jtext "code" +:+ ", " +:+ jtext "output" +:+ ": "
  +:+ jtext output +:+ "}}".

(** A remote service that answers every request with status 200 and one
    code chunk. *)
Definition service (url : string) (payload : pyval) : http_outcome :=
  HttpResponse 200 (code_chunk "https://www.notion.so/page").

#[export] Instance runtime : Runtime.
Proof.
  refine {| json_loads := loads;
            format_field_ext := fun _ _ _ _ _ =>
              Raise (Exn ValueError
                         "field accessors, conversions and format specs are not interpreted");
            http_post := service;
            status_error_text := fun status_code => "HTTP status " +:+ pretty status_code;
            nesting_room := levels;
            json_loads_text := _ |}.
  intros line v. unfold loads. destruct (parse line) as [parsed|]; [|discriminate].
  destruct (text_fault (S (S levels)) parsed) eqn:Hfault; [discriminate|].
  intros [= <-]. exact Hfault.
Defined.

End Mini.

(** ** Reading the statements *)
Module Spec.

(** An optional text argument as the object passed. *)
Definition as_value (r : option string) : pyval :=
  match r with Some s => PStr s | None => PNone end.

(** An absent text counts as the empty text. *)
Definition text_of (r : option string) : string :=
  match r with Some s => s | None => EmptyString end.

(** The title as C10 words it: special characters removed, stripped,
    cut to 100 characters, and "Untitled" when nothing is left. *)
Definition cleaned_title (title : string) : string :=
  let t := take_prefix 100 (strip (remove_chars WordwareMcp.is_special title)) in
  if is_empty t then "Untitled" else t.

(** The body as C10 words it: every line without its trailing white space,
    blank lines dropped. *)
Definition body_lines (body : string) : list string :=
  filter (fun line => is_empty line = false) (map rstrip (split newline body)).

Definition cleaned_body (body : string) : string :=
  join (chr newline) (body_lines body).

(** *** Templates as C7 and C8 read them *)

(** A string leaf is a run of pieces: literal text, or a placeholder
    written [{key}]. *)
Inductive piece : Type :=
| Text (s : string)
| Hole (key : string).

Definition written_piece (p : piece) : string :=
  match p with
  | Text s => s
  | Hole key => "{" +:+ key +:+ "}"
  end.

(** The template text that the pieces spell. *)
Fixpoint written (ps : list piece) : string :=
  match ps with
  | [] => EmptyString
  | p :: r => written_piece p +:+ written r
  end.

(** The text with each placeholder replaced by the string form of the value
    the context holds for its key. *)
Definition filled_piece (context : pydict) (p : piece) : string :=
  match p with
  | Text s => s
  | Hole key =>
      match dict_lookup context key with
      | Some v => py_str v
      | None => written_piece p
      end
  end.

Fixpoint filled (context : pydict) (ps : list piece) : string :=
  match ps with
  | [] => EmptyString
  | p :: r => filled_piece context p +:+ filled context r
  end.

(** Literal text has no brace. *)
Definition plain_text (s : string) : bool :=
  negb (mem_char "{"%char s) && negb (mem_char "}"%char s).

Definition key_char (c : ascii) : bool := negb (mem_char c "{}[.!:").

Fixpoint key_chars (key : string) : bool :=
  match key with
  | EmptyString => true
  | String c t => key_char c && key_chars t
  end.

(** A key is a name: not empty, not a number, and free of the characters
    that [str.format] reads as syntax inside a field. *)
Definition plain_key (key : string) : bool :=
  negb (is_empty key) && key_chars key && negb (Format.all_digits key).

Definition plain_piece (p : piece) : bool :=
  match p with
  | Text s => plain_text s
  | Hole key => plain_key key
  end.

Definition hole_present (context : pydict) (p : piece) : bool :=
  match p with
  | Text _ => true
  | Hole key => dict_has context key
  end.

(** A template: string leaves, other leaves, mappings and sequences. *)
#[warnings="-register-all"]
Inductive tmpl : Type :=
| Leaf (ps : list piece)
| Other (v : pyval)
| Mapping (d : list (string * tmpl))
| Sequence (l : list tmpl).

(** A leaf that is neither text nor a container. *)
Definition other_leaf (v : pyval) : bool :=
  match v with
  | PNone | PBool _ | PInt _ => true
  | _ => false
  end.

(** The Python object that is the template. *)
Fixpoint written_tree (t : tmpl) : pyval :=
  match t with
  | Leaf ps => PStr (written ps)
  | Other v => v
  | Mapping d => PDict (map (fun kv => match kv with (k, x) => (k, written_tree x) end) d)
  | Sequence l => PList (map written_tree l)
  end.


Fixpoint plain_tree (t : tmpl) : bool :=
  match t with
  | Leaf ps => forallb plain_piece ps
  | Other v => other_leaf v
  | Mapping d => forallb (fun kv => match kv with (_, x) => plain_tree x end) d
  | Sequence l => forallb plain_tree l
  end.


(** *** Lines of a streaming response *)

Definition lookup_or (fallback : pyval) (d : pydict) (key : string) : pyval :=
  match dict_lookup d key with Some v => v | None => fallback end.

(** A decoded line without a code output: an object that is not a chunk, or
    a chunk whose value (the empty mapping when absent) is an object that is
    not of type code or whose output is absent or falsy. *)
Definition no_output (chunk : pyval) : bool :=
  match chunk with
  | PDict d =>
      negb (py_eq_text (lookup_or PNone d "type") "chunk")
      || match lookup_or (PDict []) d "value" with
         | PDict v =>
             negb (py_eq_text (lookup_or PNone v "type") "code")
             || negb (truthy (lookup_or PNone v "output"))
         | _ => false
         end
  | _ => false
  end.

(** A decoded line of the shape
    [{type: chunk, value: {type: code, output: x}}] with [x] a non-empty
    text. *)
Definition code_output (chunk : pyval) (x : string) : Prop :=
  exists d v,
    chunk = PDict d
    /\ dict_lookup d "type" = Some (PStr "chunk")
    /\ dict_lookup d "value" = Some (PDict v)
    /\ dict_lookup v "type" = Some (PStr "code")
    /\ dict_lookup v "output" = Some (PStr x)
    /\ is_empty x = false.

Section Lines.
Context `{Runtime}.

(** A line that does not qualify and is harmless: blank, undecodable, or
    decoded to an object without a code output. *)
Definition skipped (line : string) : Prop :=
  is_empty (strip line) = true
  \/ json_loads line = None
  \/ exists chunk, json_loads line = Some chunk /\ no_output chunk = true.

(** A line that qualifies with output [x]. *)
Definition qualifies (line x : string) : Prop :=
  is_empty (strip line) = false
  /\ exists chunk, json_loads line = Some chunk /\ code_output chunk x.

End Lines.

(** *** The job life cycle as C6 reads it *)

(** [result] is set only under [complete], [error] only under [error]. *)
Definition job_ok (j : Jobs.job) : Prop :=
  (Jobs.result j <> PNone -> Jobs.status j = Jobs.Complete)
  /\ (Jobs.error j <> PNone -> Jobs.status j = Jobs.Failed).

(** The status a job has while its coroutine stands at a given point. *)
Definition status_at (p : Jobs.pc) : Jobs.job_status :=
  match p with
  | Jobs.AtStart => Jobs.Pending
  | Jobs.AtWork | Jobs.Awaiting | Jobs.AtComplete _ | Jobs.AtFailed _ => Jobs.Processing
  | Jobs.AtResult _ => Jobs.Complete
  | Jobs.AtErrorText _ => Jobs.Failed
  end.

(** While its coroutine runs, a job has neither result nor error. *)
Definition consistent (p : Jobs.pc) (j : Jobs.job) : Prop :=
  Jobs.status j = status_at p /\ Jobs.result j = PNone /\ Jobs.error j = PNone.

Definition tracked (store : gmap string Jobs.job) (t : Jobs.task) : Prop :=
  exists j, store !! Jobs.task_job t = Some j /\ consistent (Jobs.at_pc t) j.

(** What the event loop maintains: one coroutine per job at most, each in
    step with its job, and every job well formed. *)
Definition invariant (w : Jobs.world) : Prop :=
  NoDup (Jobs.task_job <$> Jobs.tasks w)
  /\ Forall (tracked (Jobs.jobs w)) (Jobs.tasks w)
  /\ map_Forall (fun _ j => job_ok j) (Jobs.jobs w).

(** *** Rendering read off any template *)

(** A string leaf after rendering: filled in when the context holds all of
    its keys, as it was written otherwise. *)
Definition rendered_leaf (context : pydict) (ps : list piece) : string :=
  if forallb (hole_present context) ps then filled context ps else written ps.

Fixpoint rendered_tree (context : pydict) (t : tmpl) : pyval :=
  match t with
  | Leaf ps => PStr (rendered_leaf context ps)
  | Other v => v
  | Mapping d =>
      PDict (map (fun kv => match kv with (k, x) => (k, rendered_tree context x) end) d)
  | Sequence l => PList (map (rendered_tree context) l)
  end.

(** Two objects of one shape: text against text, mappings with the same
    keys in the same order, sequences of the same length, and any other
    leaf against itself. *)
Fixpoint same_shape (t r : pyval) : bool :=
  match t, r with
  | PStr _, PStr _ => true
  | PNone, PNone => true
  | PBool b, PBool b' => Bool.eqb b b'
  | PInt n, PInt n' => (n =? n')%Z
  | PDict d, PDict d' =>
      (fix entries (d : list (string * pyval)) (d' : pydict) : bool :=
         match d, d' with
         | [], [] => true
         | (k, x) :: d1, (k', x') :: d1' =>
             String.eqb k k' && same_shape x x' && entries d1 d1'
         | _, _ => false
         end) d d'
  | PList l, PList l' =>
      (fix items (l : list pyval) (l' : list pyval) : bool :=
         match l, l' with
         | [], [] => true
         | x :: l1, x' :: l1' => same_shape x x' && items l1 l1'
         | _, _ => false
         end) l l'
  | _, _ => false
  end.

(** The payload template of a tool with one input field. *)
Definition field_template (field : string) : tmpl :=
  Mapping [("inputs", Mapping [(field, Leaf [Hole field])]);
           ("version", Leaf [Text "^1.0"])].


(** The string forms of the truthy values whose key is kept, in the order
    of the arguments, joined by single spaces. *)
Definition joined (keep : string -> bool) (inputs : pydict) : string :=
  join " " (map (fun kv => py_str kv.2)
                (filter (fun kv => truthy kv.2 && keep kv.1 = true) inputs)).

(** The payload a tool with one input field sends. *)
Definition field_payload (field text : string) : pyval :=
  PDict [("inputs", PDict [(field, PStr text)]); ("version", PStr "^1.0")].

(** *** Jobs at rest *)

(** A job no coroutine works on: untouched, complete without an error, or
    failed with an error text and no result. *)
Definition at_rest (j : Jobs.job) : Prop :=
  j = Jobs.new_job
  \/ (Jobs.status j = Jobs.Complete /\ Jobs.error j = PNone)
  \/ (Jobs.status j = Jobs.Failed /\ Jobs.result j = PNone
      /\ exists text, Jobs.error j = PStr text).

(** The job a coroutine leaves behind when it has run to its end. *)
Definition outcome_job (prep : outcome Jobs.request)
    (fin : http_outcome -> outcome pyval) (o : http_outcome) : Jobs.job :=
  match prep with
  | Raise e => Jobs.Job Jobs.Failed PNone (PStr (exn_text e))
  | Ret _ =>
      match fin o with
      | Ret r => Jobs.Job Jobs.Complete r PNone
      | Raise e => Jobs.Job Jobs.Failed PNone (PStr (exn_text e))
      end
  end.

(** Text without a line break. *)
Definition one_line (s : string) : bool := negb (mem_char newline s).

(** Every job has a coroutine at work on it or is at rest. *)
Definition rest_invariant (w : Jobs.world) : Prop :=
  forall job_id j,
    Jobs.jobs w !! job_id = Some j ->
    job_id ∈ Jobs.task_job <$> Jobs.tasks w \/ at_rest j.

End Spec.

(** ** A worked run of one asynchronous invocation *)
Module Demo.
Import Jobs.

Definition page_tool : ReActTool.DynamicWordwareTool :=
  match dict_lookup ReActTool.dynamic_tools "notion_page" with
  | Some tool => tool
  | None => ReActTool.init (Tools.Build_tool_config EmptyString PNone EmptyString false)
  end.

Definition kwargs : pydict := [("title", PStr "T"); ("body", PStr "short")].

Definition coroutine : task :=
  @ReActTool._background_run Mini.runtime page_tool "job-1" kwargs.

Definition reply : http_outcome := Mini.service (ReActTool.api_url page_tool) PNone.

Definition page_url : pyval := PStr "https://www.notion.so/page".

(** [run_async] has returned; the coroutine has not run yet. *)
Definition w1 : world :=
  (@ReActTool.run_async Mini.runtime page_tool "job-1" kwargs empty_world).2.

(** The coroutine runs statement by statement until it ends. *)
Definition w2 : world := resume [] coroutine [] reply w1.
Definition w3 : world := resume [] (move coroutine AtWork) [] reply w2.
Definition w4 : world := resume [] (move coroutine Awaiting) [] reply w3.
Definition w5 : world := resume [] (move coroutine (AtComplete page_url)) [] reply w4.
Definition w6 : world := resume [] (move coroutine (AtResult page_url)) [] reply w5.



End Demo.

(** ** When a call raises *)
Module Cases.

Definition raises {A : Type} (m : outcome A) : bool :=
  match m with Ret _ => false | Raise _ => true end.

Definition is_text (v : pyval) : bool :=
  match v with PStr _ => true | _ => false end.

(** An object that has a length. *)
Definition sized (v : pyval) : bool :=
  match v with PStr _ | PList _ | PDict _ => true | _ => false end.

(** A sized object with more than [n] items. *)
Definition longer_than (n : nat) (v : pyval) : bool :=
  match v with
  | PStr s => (n <? String.length s)%nat
  | PList l => (n <? length l)%nat
  | PDict d => (n <? length d)%nat
  | _ => false
  end.

(** What [handle_user_request] writes to standard output before it looks
    the tool up. *)
Definition dispatch_preamble (user_command tool : string) (inputs : pydict) : string :=
  ReActTool.out_line ("handle_user_request: Received user command: " +:+ user_command)
  +:+ ReActTool.out_line ("handle_user_request: Claude selected tool '" +:+ tool +:+ "'")
  +:+ ReActTool.out_line ("handle_user_request: Raw inputs: " +:+ py_repr (PDict inputs)).

(** The world in which the selected tool is run: four lines have been
    written. *)
Definition before_run (user_command tool : string) (inputs processed : pydict)
    (w : Jobs.world) : Jobs.world :=
  Jobs.write
    (dispatch_preamble user_command tool inputs
     +:+ ReActTool.out_line ("handle_user_request: Running tool with processed inputs: "
                             +:+ py_repr (PDict processed)))
    w.


Section WithRuntime.
Context `{Runtime}.


End WithRuntime.
End Cases.

(** * Properties *)

(** ** Text *)

Lemma append_cons (c : ascii) (a b : string) : String c a +:+ b = String c (a +:+ b).
Proof. reflexivity. Qed.

Lemma length_append (a b : string) :
  String.length (a +:+ b) = (String.length a + String.length b)%nat.
Proof. induction a as [|c a IH]; [reflexivity | rewrite !append_cons; cbn; f_equal; exact IH]. Qed.

Lemma append_not_self (a b : string) : is_empty b = false -> a <> a +:+ b.
Proof.
  intros Hb Heq. apply (f_equal String.length) in Heq.
  rewrite length_append in Heq. destruct b; [discriminate | simpl in Heq; lia].
Qed.

Lemma append_empty_r (a : string) : a +:+ EmptyString = a.
Proof. induction a as [|c a IH]; [reflexivity | rewrite !append_cons; cbn; f_equal; exact IH]. Qed.

Lemma append_assoc (a b c : string) : (a +:+ b) +:+ c = a +:+ (b +:+ c).
Proof. induction a as [|x a IH]; [reflexivity | rewrite !append_cons; cbn; f_equal; exact IH]. Qed.

(** Induction over objects, with the hypothesis available for every element
    of a list and every value of a mapping. *)
Lemma pyval_nested_ind (P : pyval -> Prop) :
  P PNone ->
  (forall b, P (PBool b)) ->
  (forall n, P (PInt n)) ->
  (forall s, P (PStr s)) ->
  (forall l, Forall P l -> P (PList l)) ->
  (forall d, Forall (fun kv => P kv.2) d -> P (PDict d)) ->
  forall v, P v.
Proof.
  intros Hnone Hbool Hint Hstr Hlist Hdict. fix IH 1. intros [|b|n|s|l|d].
  - exact Hnone.
  - apply Hbool.
  - apply Hint.
  - apply Hstr.
  - apply Hlist. induction l as [|x l IHl]; constructor; [apply IH | exact IHl].
  - apply Hdict. induction d as [|[k x] d IHd]; constructor; [apply IH | exact IHd].
Qed.

(** ** Conversions to text *)

Lemma first_fault_none (faults : list (option pyexn)) :
  first_fault faults = None <-> Forall (fun f => f = None) faults.
Proof.
  induction faults as [|[e|] faults IH]; cbn.
  - split; [constructor | reflexivity].
  - split; [discriminate | intros Hall; apply Forall_cons in Hall as [Hf _]; discriminate].
  - rewrite IH. split; [now constructor | intros Hall; now apply Forall_cons in Hall as [_ Hall]].
Qed.

(** A list within the limits has its items within the limits, one level
    deeper. *)
Lemma text_fault_items (deeper : nat) (l : list pyval) :
  text_fault (S deeper) (PList l) = None <-> Forall (fun x => text_fault deeper x = None) l.
Proof.
  destruct l as [|x l]; [split; [constructor | reflexivity]|].
  cbn [text_fault]. rewrite first_fault_none, Forall_fmap. reflexivity.
Qed.

Lemma text_fault_values (deeper : nat) (d : pydict) :
  text_fault (S deeper) (PDict d) = None
  <-> Forall (fun kv => text_fault deeper kv.2 = None) d.
Proof.
  destruct d as [|kv d]; [split; [constructor | reflexivity]|].
  cbn [text_fault]. rewrite first_fault_none, Forall_fmap.
  apply Forall_iff. now intros [k x].
Qed.

(** More room never hurts. *)
Lemma text_fault_mono (v : pyval) (room : nat) :
  text_fault room v = None -> text_fault (S room) v = None.
Proof.
  revert room. induction v as [|b|n|s|l IH|d IH] using pyval_nested_ind; intros room Hv;
    try exact Hv.
  - destruct l as [|x l]; [reflexivity|]. destruct room as [|deeper]; [discriminate|].
    apply text_fault_items. apply text_fault_items in Hv.
    rewrite Forall_forall in IH, Hv. apply Forall_forall. intros y Hy. now apply IH, Hv.
  - destruct d as [|kv d]; [reflexivity|]. destruct room as [|deeper]; [discriminate|].
    apply text_fault_values. apply text_fault_values in Hv.
    rewrite Forall_forall in IH, Hv. apply Forall_forall. intros y Hy. now apply IH, Hv.
Qed.

Lemma dict_lookup_elem {A : Type} (d : list (string * A)) (k : string) (v : A) :
  dict_lookup d k = Some v -> (k, v) ∈ d.
Proof.
  induction d as [|[k' v'] d IH]; [discriminate|]. cbn [dict_lookup].
  destruct (String.eqb_spec k' k) as [->|_].
  - intros [= ->]. apply list_elem_of_here.
  - intros Hd. apply list_elem_of_further. now apply IH.
Qed.

(** The value under a key of a mapping within the limits is within the
    limits, with a level to spare. *)
Lemma text_fault_lookup (deeper : nat) (d : pydict) (k : string) (v : pyval) :
  text_fault (S deeper) (PDict d) = None -> dict_lookup d k = Some v ->
  text_fault deeper v = None.
Proof.
  intros Hd Hk. apply text_fault_values in Hd. rewrite Forall_forall in Hd.
  exact (Hd (k, v) (dict_lookup_elem d k v Hk)).
Qed.

Section TextFacts.
Context `{Runtime}.

Lemma has_text_fault (v : pyval) : has_text v = true <-> text_fault room v = None.
Proof.
  unfold has_text. destruct (text_fault room v); split; congruence.
Qed.

Lemma to_text_has_text (v : pyval) : has_text v = true -> to_text v = Ret (py_str v).
Proof. unfold has_text, to_text. now destruct (text_fault room v). Qed.

Lemma to_text_returns (v : pyval) (shown : string) :
  to_text v = Ret shown -> has_text v = true /\ shown = py_str v.
Proof.
  unfold has_text, to_text. destruct (text_fault room v); [discriminate|].
  intros [= <-]. now split.
Qed.

Lemma to_text_raises (v : pyval) (e : pyexn) : to_text v = Raise e -> has_text v = false.
Proof. unfold has_text, to_text. now destruct (text_fault room v). Qed.

(** A value of a mapping that has a text form has one itself. *)
Lemma has_text_lookup (d : pydict) (k : string) (v : pyval) :
  has_text (PDict d) = true -> dict_lookup d k = Some v -> has_text v = true.
Proof.
  rewrite !has_text_fault. unfold room. intros Hd Hk.
  apply text_fault_mono. exact (text_fault_lookup _ d k v Hd Hk).
Qed.

Lemma has_text_values (d : pydict) : has_text (PDict d) = true -> values_have_text d = true.
Proof.
  rewrite has_text_fault. unfold room, values_have_text. intros Hd.
  apply text_fault_values in Hd. apply forallb_forall. intros kv Hin.
  apply has_text_fault, text_fault_mono. rewrite Forall_forall in Hd.
  apply Hd. now apply list_elem_of_In.
Qed.

Lemma values_have_text_lookup (d : pydict) (k : string) (v : pyval) :
  values_have_text d = true -> dict_lookup d k = Some v -> has_text v = true.
Proof.
  unfold values_have_text. intros Hd Hk. rewrite forallb_forall in Hd.
  apply (Hd (k, v)). apply list_elem_of_In. exact (dict_lookup_elem d k v Hk).
Qed.


End TextFacts.

(** ** The refinement pass *)

Section AgentFacts.
Context `{Runtime}.

(** What [react_agent] returns or raises, without what it writes: the
    exception of the initial result's conversion when it is printed, or
    else the decision. *)
Lemma react_agent_outcome (user_command : string) (title body initial_result : pyval) :
  ReActTool.react_agent user_command title body initial_result
  = match (if truthy initial_result then text_fault room initial_result else None) with
    | Some e => Raise e
    | None =>
        obind (if contains "multi-step" (lower user_command) then Ret true
               else omap (fun n => 100 <? n)%nat (py_len body))
              (fun further =>
                 if further : bool
                 then py_add_text (py_or initial_result (PStr "")) ReActTool.additional_info
                 else Ret (py_or initial_result (PStr "No result from tool.")))
    end.
Proof.
  unfold ReActTool.react_agent, ReActTool.react_agent_run, to_text.
  destruct (truthy initial_result) eqn:Ht.
  - destruct (text_fault room initial_result); [reflexivity|]. cbn [omap obind].
    destruct (contains "multi-step" (lower user_command)).
    + cbn [obind]. now destruct (py_add_text _ _).
    + destruct (py_len body) as [n|e]; [|reflexivity]. cbn [omap obind].
      destruct (100 <? n)%nat; [|reflexivity]. now destruct (py_add_text _ _).
  - destruct (contains "multi-step" (lower user_command)).
    + cbn [obind]. now destruct (py_add_text _ _).
    + destruct (py_len body) as [n|e]; [|reflexivity]. cbn [omap obind].
      destruct (100 <? n)%nat; [|reflexivity]. now destruct (py_add_text _ _).
Qed.


(** C3: for every command, body text and optional initial result,
    [react_agent] returns a text; that text is the initial result (the empty
    text when there is none) followed by the fixed suffix exactly when the
    lowercased command contains "multi-step" or the body is longer than 100
    characters; otherwise it is the initial result itself, or the sentinel
    "No result from tool." when the initial result is absent or empty. *)
Theorem react_agent_decision
    (user_command body : string) (title : pyval) (initial_result : option string) :
  let further :=
    contains "multi-step" (lower user_command) || (100 <? String.length body)%nat in
  let given := Spec.text_of initial_result in
  exists final : string,
    ReActTool.react_agent user_command title (PStr body) (Spec.as_value initial_result)
      = Ret (PStr final)
    /\ (final = given +:+ ReActTool.additional_info <-> further = true)
    /\ (further = false ->
        final = if is_empty given then "No result from tool." else given).
Proof.
  cbv zeta. rewrite react_agent_outcome.
  replace (if truthy (Spec.as_value initial_result)
           then text_fault room (Spec.as_value initial_result) else None)
    with (@None pyexn) by (now destruct initial_result as [[|c r]|]).
  destruct (contains "multi-step" (lower user_command)) eqn:Hcmd; cbn [orb obind omap py_len].
  - destruct initial_result as [[|c r]|]; cbn; eexists; (split; [reflexivity|]);
      split; try tauto; discriminate.
  - destruct (100 <? String.length body)%nat eqn:Hlen.
    + destruct initial_result as [[|c r]|]; cbn; eexists; (split; [reflexivity|]);
        split; try tauto; discriminate.
    + destruct initial_result as [[|c r]|]; cbn -[String.append];
        eexists; (split; [reflexivity|]); (split; [|reflexivity]).
      * split; discriminate.
      * split; [|discriminate]. intros Heq. exfalso.
        exact (append_not_self (String c r) ReActTool.additional_info eq_refl Heq).
      * split; discriminate.
Qed.

End AgentFacts.

(** ** The scan of a streaming response *)

Section StreamFacts.
Context `{Runtime}.

(** A decoded line that is not a JSON object ends the scan with the
    [AttributeError] of its missing [get]. *)
Lemma check_line_not_object (line : string) (v : pyval) :
  json_loads line = Some v ->
  (forall d, v <> PDict d) ->
  Stream.check_line line = Raise (no_attribute v "get").
Proof.
  intros Hdec Hobj. unfold Stream.check_line. rewrite Hdec.
  destruct v; try reflexivity. now destruct (Hobj d).
Qed.

(** A line of the expected shape is returned with its output. *)
Lemma check_line_qualifies (line x : string) :
  Spec.qualifies line x -> Stream.check_line line = Ret (Some (PStr x)).
Proof.
  intros (_ & chunk & Hdec & d & v & -> & Hty & Hval & Hvty & Hout & Hx).
  unfold Stream.check_line. rewrite Hdec. cbn. rewrite Hty. cbn. rewrite Hval. cbn.
  rewrite Hvty. cbn. rewrite Hout. cbn. now rewrite Hx.
Qed.

(** The body of the loop passes over a harmless line. *)
Lemma check_line_skipped (line : string) :
  Spec.skipped line ->
  is_empty (strip line) = true \/ Stream.check_line line = Ret None.
Proof.
  intros [Hblank|[Hdec|(chunk & Hdec & Hno)]]; [now left| |]; right;
    unfold Stream.check_line; rewrite Hdec; [reflexivity|].
  destruct chunk as [| | | |l|d]; try discriminate. unfold Spec.no_output in Hno.
  unfold Spec.lookup_or in Hno. cbn [py_get obind].
  destruct (negb (py_eq_text match dict_lookup d "type" with
                             | Some v => v | None => PNone end "chunk")) eqn:Hty;
    [reflexivity|].
  cbn [orb] in Hno.
  destruct (dict_lookup d "value") as [value|] eqn:Hval.
  - destruct value as [| | | |l|v]; try discriminate. cbn [py_get obind].
    apply orb_true_iff in Hno as [Hno|Hno].
    + now rewrite Hno.
    + destruct (negb (py_eq_text _ "code")); [reflexivity|].
      cbn [obind]. now rewrite Hno.
  - reflexivity.
Qed.

Lemma scan_lines_skip (not_found : string) (before rest : list string) :
  Forall Spec.skipped before ->
  Stream.scan_lines not_found (before ++ rest) = Stream.scan_lines not_found rest.
Proof.
  induction 1 as [|line before Hline _ IH]; [reflexivity|].
  cbn. destruct (is_empty (strip line)) eqn:Hblank; [exact IH|].
  destruct (check_line_skipped line Hline) as [Hb|Hc]; [congruence|]. now rewrite Hc.
Qed.

(** When every line is passed over, the scan returns the sentinel. *)
Lemma scan_lines_none (not_found : string) (lines : list string) :
  Forall Spec.skipped lines ->
  Stream.scan_lines not_found lines = Ret (PStr not_found).
Proof.
  intros Hall. rewrite <- (app_nil_r lines). now rewrite scan_lines_skip.
Qed.

(** The first line that returns decides the result, whatever follows. *)
Lemma scan_lines_first (not_found line : string) (r : pyval) (before rest : list string) :
  Forall Spec.skipped before ->
  is_empty (strip line) = false ->
  Stream.check_line line = Ret (Some r) ->
  Stream.scan_lines not_found (before ++ line :: rest) = Ret r.
Proof.
  intros Hall Hblank Hline. rewrite scan_lines_skip by assumption.
  cbn. now rewrite Hblank, Hline.
Qed.

(** The first line that raises ends the scan with its exception. *)
Lemma scan_lines_raise (not_found line : string) (e : pyexn) (before rest : list string) :
  Forall Spec.skipped before ->
  is_empty (strip line) = false ->
  Stream.check_line line = Raise e ->
  Stream.scan_lines not_found (before ++ line :: rest) = Raise e.
Proof.
  intros Hall Hblank Hline. rewrite scan_lines_skip by assumption.
  cbn. now rewrite Hblank, Hline.
Qed.

(** A response body whose lines are all blank, undecodable, or decoded to
    an object without a code output yields the sentinel of the client that
    scans it. *)
Theorem extract_not_found (response_text : string) :
  Forall Spec.skipped (split newline response_text) ->
  ReActTool.process_response response_text = Ret (PStr "No output found")
  /\ WordwareMcp._process_streaming_response response_text
     = Ret (PStr "No Notion page URL found in response")
  /\ WordwareApi._process_streaming_response response_text
     = Ret (PStr "No Notion page URL found in response").
Proof. intros Hall. repeat split; now apply scan_lines_none. Qed.

(** In a response body whose lines before the first qualifying line are all
    blank, undecodable, or decoded to an object without a code output, the
    output of that first qualifying line is returned, whatever follows. *)
Theorem extract_first_match (response_text line x : string) (before rest : list string) :
  split newline response_text = before ++ line :: rest ->
  Forall Spec.skipped before ->
  Spec.qualifies line x ->
  ReActTool.process_response response_text = Ret (PStr x).
Proof.
  intros Hsplit Hall Hq. unfold ReActTool.process_response. rewrite Hsplit.
  apply scan_lines_first; [exact Hall | exact (proj1 Hq) | now apply check_line_qualifies].
Qed.

(** C4: a response body with no qualifying line whose only line is the JSON
    number 5.  The line decodes, it is not an object, and the scan raises
    an [AttributeError] where the sentinel "No output found" is promised. *)
Theorem process_response_scalar_line :
  json_loads "5" = Some (PInt 5) ->
  ReActTool.process_response "5"
    = Raise (Exn AttributeError "'int' object has no attribute 'get'").
Proof.
  intros Hdec. unfold ReActTool.process_response.
  change (split newline "5") with ([] ++ ["5"] : list string).
  apply scan_lines_raise; [constructor | reflexivity |].
  now rewrite (check_line_not_object "5" (PInt 5)).
Qed.

(** C5: a response body whose second line is a qualifying line carrying
    [x], after a first line that is the JSON number 5.  No earlier line
    qualifies, and yet the scan raises before it reaches the second line. *)
Theorem process_response_scalar_before_match (x : string) :
  json_loads "5" = Some (PInt 5) ->
  ReActTool.process_response ("5" +:+ chr newline +:+ Mini.code_chunk x)
    = Raise (Exn AttributeError "'int' object has no attribute 'get'").
Proof.
  intros Hdec. unfold ReActTool.process_response.
  change (split newline ("5" +:+ chr newline +:+ Mini.code_chunk x))
    with ([] ++ "5" :: split newline (Mini.code_chunk x)).
  apply scan_lines_raise; [constructor | reflexivity |].
  now rewrite (check_line_not_object "5" (PInt 5)).
Qed.

End StreamFacts.

Lemma extract_not_found_witness :
  Forall (@Spec.skipped Mini.runtime)
         (split newline ("  " +:+ chr newline +:+ "not json" +:+ chr newline
                         +:+ "{" +:+ Mini.jtext "type" +:+ ": " +:+ Mini.jtext "status" +:+ "}"))
  /\ @ReActTool.process_response Mini.runtime
       ("  " +:+ chr newline +:+ "not json" +:+ chr newline
        +:+ "{" +:+ Mini.jtext "type" +:+ ": " +:+ Mini.jtext "status" +:+ "}")
     = Ret (PStr "No output found").
Proof.
  assert (Hall : Forall (@Spec.skipped Mini.runtime)
                   (split newline ("  " +:+ chr newline +:+ "not json" +:+ chr newline
                      +:+ "{" +:+ Mini.jtext "type" +:+ ": " +:+ Mini.jtext "status" +:+ "}"))).
  { constructor; [left; reflexivity|].
    constructor; [right; left; reflexivity|].
    constructor; [right; right; eexists; split; reflexivity|]. constructor. }
  split; [exact Hall|].
  exact (proj1 (@extract_not_found Mini.runtime _ Hall)).
Defined.

Lemma extract_first_match_witness :
  @Spec.qualifies Mini.runtime (Mini.code_chunk "X") "X"
  /\ @ReActTool.process_response Mini.runtime
       ("not json" +:+ chr newline +:+ Mini.code_chunk "X" +:+ chr newline
        +:+ Mini.code_chunk "Y")
     = Ret (PStr "X").
Proof.
  assert (Hq : @Spec.qualifies Mini.runtime (Mini.code_chunk "X") "X").
  { split; [reflexivity|]. eexists. split; [vm_compute; reflexivity|].
    eexists _, _. repeat split; reflexivity. }
  split; [exact Hq|].
  apply (@extract_first_match Mini.runtime _ (Mini.code_chunk "X") "X"
           ["not json"] [Mini.code_chunk "Y"]); [reflexivity | | exact Hq].
  constructor; [right; left; reflexivity | constructor].
Defined.

Lemma process_response_scalar_line_witness :
  @json_loads Mini.runtime "5" = Some (PInt 5)
  /\ @ReActTool.process_response Mini.runtime "5"
     = Raise (Exn AttributeError "'int' object has no attribute 'get'").
Proof.
  split; [reflexivity|].
  apply (@process_response_scalar_line Mini.runtime). reflexivity.
Defined.

Lemma process_response_scalar_before_match_witness :
  @json_loads Mini.runtime "5" = Some (PInt 5)
  /\ @json_loads Mini.runtime (Mini.code_chunk "X")
     = Some (PDict [("type", PStr "chunk");
                    ("value", PDict [("type", PStr "code"); ("output", PStr "X")])])
  /\ @ReActTool.process_response Mini.runtime ("5" +:+ chr newline +:+ Mini.code_chunk "X")
     = Raise (Exn AttributeError "'int' object has no attribute 'get'").
Proof.
  split; [reflexivity|]. split; [vm_compute; reflexivity|].
  apply (@process_response_scalar_before_match Mini.runtime "X"). reflexivity.
Defined.

(** ** Input cleaning of the Notion page client *)

Lemma char_eqb_eq (a b : ascii) : char_eqb a b = true -> a = b.
Proof. apply Ascii.eqb_eq. Qed.

Lemma mem_char_take (c : ascii) (n : nat) (s : string) :
  mem_char c (take_prefix n s) = true -> mem_char c s = true.
Proof.
  revert s; induction n as [|n IH]; intros [|d s]; cbn; try discriminate.
  intros Hm. apply orb_true_iff in Hm as [Hm|Hm]; apply orb_true_iff; auto.
Qed.

Lemma mem_char_lstrip (c : ascii) (s : string) :
  mem_char c (lstrip s) = true -> mem_char c s = true.
Proof.
  induction s as [|d s IH]; cbn; [discriminate|].
  destruct (isspace d); [|exact id].
  intros Hm. apply orb_true_iff. auto.
Qed.

Lemma mem_char_rstrip (c : ascii) (s : string) :
  mem_char c (rstrip s) = true -> mem_char c s = true.
Proof.
  induction s as [|d s IH]; cbn; [discriminate|].
  destruct (isspace d && is_empty (rstrip s)); cbn; [discriminate|].
  intros Hm. apply orb_true_iff in Hm as [Hm|Hm]; apply orb_true_iff; auto.
Qed.

Lemma mem_char_removed (bad : ascii -> bool) (c : ascii) (s : string) :
  mem_char c (remove_chars bad s) = true -> bad c = false.
Proof.
  induction s as [|d s IH]; cbn; [discriminate|].
  destruct (bad d) eqn:Hd; [exact IH|]. cbn.
  intros Hm. apply orb_true_iff in Hm as [Hm|Hm]; [|auto].
  apply char_eqb_eq in Hm. now subst d.
Qed.

Lemma length_take_prefix (n : nat) (s : string) :
  (String.length (take_prefix n s) <= n)%nat.
Proof.
  revert s; induction n as [|n IH]; intros [|d s]; cbn; try lia.
  specialize (IH s). lia.
Qed.

Lemma is_empty_take_prefix (n : nat) (s : string) :
  is_empty (take_prefix (S n) s) = is_empty s.
Proof. now destruct s. Qed.

Lemma rstrip_idempotent (s : string) : rstrip (rstrip s) = rstrip s.
Proof.
  induction s as [|d s IH]; cbn; [reflexivity|].
  destruct (isspace d && is_empty (rstrip s)) eqn:Hd; cbn; [reflexivity|].
  now rewrite IH, Hd.
Qed.

Lemma filter_map_rstrip (lines : list string) :
  map rstrip (filter (fun line => is_empty (rstrip line) = false) lines)
  = filter (fun line => is_empty line = false) (map rstrip lines).
Proof.
  induction lines as [|l lines IH]; [reflexivity|].
  cbn [map]. rewrite !filter_cons.
  destruct (decide (is_empty (rstrip l) = false)); cbn [map]; now rewrite IH.
Qed.

Lemma clean_title_spec (title : string) :
  WordwareMcp._clean_title title = Spec.cleaned_title title.
Proof.
  unfold WordwareMcp._clean_title, Spec.cleaned_title.
  destruct title as [|c title]; [reflexivity|].
  cbn [is_empty]. cbv zeta. now rewrite is_empty_take_prefix.
Qed.

Lemma clean_body_spec (body : string) :
  WordwareMcp._clean_body body = Spec.cleaned_body body.
Proof.
  unfold WordwareMcp._clean_body, Spec.cleaned_body, Spec.body_lines.
  destruct body as [|c body]; [reflexivity|].
  cbn [is_empty]. cbv zeta. now rewrite filter_map_rstrip.
Qed.

Lemma cleaned_title_chars (title : string) (c : ascii) :
  mem_char c (Spec.cleaned_title title) = true -> WordwareMcp.is_special c = false.
Proof.
  unfold Spec.cleaned_title. cbv zeta.
  destruct (is_empty (take_prefix 100 _)).
  - cbn. intros Hm.
    repeat (apply orb_true_iff in Hm as [Hm|Hm];
            [apply char_eqb_eq in Hm; subst c; reflexivity|]).
    discriminate.
  - intros Hm. apply mem_char_take, mem_char_lstrip, mem_char_rstrip in Hm.
    exact (mem_char_removed _ _ _ Hm).
Qed.

Lemma cleaned_title_length (title : string) :
  (String.length (Spec.cleaned_title title) <= 100)%nat.
Proof.
  unfold Spec.cleaned_title. cbv zeta.
  destruct (is_empty (take_prefix 100 _)); [cbn; lia | apply length_take_prefix].
Qed.

Lemma body_lines_clean (body : string) :
  Forall (fun line => rstrip line = line /\ is_empty line = false) (Spec.body_lines body).
Proof.
  unfold Spec.body_lines. apply Forall_forall. intros line Hin.
  apply list_elem_of_filter in Hin as [Hne Hin].
  apply list_elem_of_fmap in Hin as [l [-> _]].
  split; [apply rstrip_idempotent | exact Hne].
Qed.

(** C10: [make_request] sends one request, to the fixed endpoint, whose
    payload holds under [inputs] the title with the nine characters of
    [special_chars] removed, then stripped, then cut to 100 characters
    ("Untitled" when nothing is left) and the body with trailing white space
    removed from each line and blank lines dropped.  The title sent has at
    most 100 characters and none of the removed characters; every line of
    the body sent is non-empty and ends in no white space. *)
Theorem make_request_sends_cleaned_input `{Runtime}
    (title body version : string) (w : Jobs.world) :
  Jobs.sent (WordwareMcp.make_request title body version w).2
    = Jobs.sent w ++
      [Jobs.Request WordwareMcp.base_url
         (PDict [("inputs", PDict [("title", PStr (Spec.cleaned_title title));
                                   ("body", PStr (Spec.cleaned_body body))]);
                 ("version", PStr version)])]
  /\ (String.length (Spec.cleaned_title title) <= 100)%nat
  /\ (forall c, mem_char c (Spec.cleaned_title title) = true ->
                WordwareMcp.is_special c = false)
  /\ Forall (fun line => rstrip line = line /\ is_empty line = false)
            (Spec.body_lines body).
Proof.
  split; [|split; [apply cleaned_title_length|split;
                   [apply cleaned_title_chars|apply body_lines_clean]]].
  unfold WordwareMcp.make_request, WordwareMcp.make_request_payload,
    WordwareMcp._validate_and_clean_input.
  cbn [snd Jobs.sent]. now rewrite clean_title_spec, clean_body_spec.
Qed.

(** ** The template renderer *)

Lemma omap_omap {A B C} (f : A -> B) (g : B -> C) (m : outcome A) :
  omap g (omap f m) = omap (fun a => g (f a)) m.
Proof. now destruct m. Qed.

Lemma key_char_not (c : ascii) :
  Spec.key_char c = true ->
  char_eqb c "{"%char = false /\ char_eqb c "}"%char = false
  /\ char_eqb c "["%char = false /\ char_eqb c "."%char = false
  /\ char_eqb c "!"%char = false /\ char_eqb c ":"%char = false.
Proof.
  unfold Spec.key_char. cbn [mem_char]. rewrite orb_false_r.
  intros Hk. apply negb_true_iff in Hk.
  repeat (apply orb_false_iff in Hk as [? Hk]). auto 10.
Qed.

Section FormatFacts.
Context `{Runtime}.
Variable context : pydict.

Lemma scan_text_char (c : ascii) (t : string) :
  char_eqb c "{"%char = false -> char_eqb c "}"%char = false ->
  Format.scan context (String c t) Format.MLit
  = omap (String c) (Format.scan context t Format.MLit).
Proof. intros Ho Hc. cbn [Format.scan]. now rewrite Ho, Hc. Qed.

Lemma scan_open (c : ascii) (t : string) :
  char_eqb c "{"%char = false ->
  Format.scan context (String "{"%char (String c t)) Format.MLit
  = Format.scan context (String c t) (Format.MName EmptyString).
Proof. intros Ho. cbn [Format.scan]. now rewrite Ho. Qed.

Lemma scan_name_char (c : ascii) (t name : string) :
  Spec.key_char c = true ->
  Format.scan context (String c t) (Format.MName name)
  = Format.scan context t (Format.MName (Format.snoc name c)).
Proof.
  intros Hk. destruct (key_char_not c Hk) as (Ho & Hc & Hb & _ & He & Hs).
  cbn [Format.scan]. now rewrite Ho, Hb, Hc, Hs, He.
Qed.

Lemma scan_name_close (t name : string) :
  Format.scan context (String "}"%char t) (Format.MName name)
  = obind (Format.render_field context name None EmptyString)
          (fun r => omap (String.append r) (Format.scan context t Format.MLit)).
Proof. reflexivity. Qed.

(** Literal text without braces is copied. *)
Lemma scan_text (s rest : string) :
  Spec.plain_text s = true ->
  Format.scan context (s +:+ rest) Format.MLit
  = omap (String.append s) (Format.scan context rest Format.MLit).
Proof.
  unfold Spec.plain_text. induction s as [|c s IH]; intros Hs.
  - change (EmptyString +:+ rest) with rest.
    destruct (Format.scan context rest Format.MLit); reflexivity.
  - cbn [mem_char] in Hs. apply andb_true_iff in Hs as [Ho Hc].
    apply negb_true_iff, orb_false_iff in Ho as [Ho Ho'].
    apply negb_true_iff, orb_false_iff in Hc as [Hc Hc'].
    rewrite Ascii.eqb_sym in Ho. rewrite Ascii.eqb_sym in Hc.
    rewrite append_cons, scan_text_char by assumption.
    rewrite IH by (now rewrite Ho', Hc').
    rewrite omap_omap. reflexivity.
Qed.

(** The characters of a name are collected up to the closing brace. *)
Lemma scan_name (key rest name : string) :
  Spec.key_chars key = true ->
  Format.scan context (key +:+ String "}"%char rest) (Format.MName name)
  = obind (Format.render_field context (name +:+ key) None EmptyString)
          (fun r => omap (String.append r) (Format.scan context rest Format.MLit)).
Proof.
  revert name. induction key as [|c key IH]; intros name Hk.
  - change (EmptyString +:+ String "}"%char rest) with (String "}"%char rest).
    now rewrite scan_name_close, append_empty_r.
  - cbn [Spec.key_chars] in Hk. apply andb_true_iff in Hk as [Hc Hk].
    rewrite append_cons, scan_name_char by assumption.
    rewrite IH by assumption. unfold Format.snoc, chr.
    now rewrite append_assoc.
Qed.

Lemma field_name_split_plain (key : string) :
  Spec.key_chars key = true -> Format.field_name_split key = (key, EmptyString).
Proof.
  induction key as [|c key IH]; [reflexivity|].
  cbn [Spec.key_chars Format.field_name_split]. intros Hk.
  apply andb_true_iff in Hk as [Hc Hk].
  destruct (key_char_not c Hc) as (_ & _ & Hb & Hd & _).
  unfold Format.is_accessor. rewrite Hb, Hd. cbn [orb]. now rewrite IH.
Qed.

(** A placeholder with a plain key is a lookup of that key. *)
Lemma render_field_plain (key : string) :
  Spec.plain_key key = true ->
  Format.render_field context key None EmptyString
  = match dict_lookup context key with
    | Some v => to_text v
    | None => Raise (Exn KeyError (repr_str key))
    end.
Proof.
  unfold Spec.plain_key. intros Hk.
  apply andb_true_iff in Hk as [Hk Hdig]. apply andb_true_iff in Hk as [Hne Hk].
  unfold Format.render_field, Format.get_field. rewrite field_name_split_plain by assumption.
  apply negb_true_iff in Hne, Hdig. rewrite Hne, Hdig.
  now destruct (dict_lookup context key).
Qed.

Lemma scan_hole (key rest : string) :
  Spec.plain_key key = true ->
  Format.scan context (Spec.written_piece (Spec.Hole key) +:+ rest) Format.MLit
  = match dict_lookup context key with
    | Some v =>
        obind (to_text v)
              (fun r => omap (String.append r) (Format.scan context rest Format.MLit))
    | None => Raise (Exn KeyError (repr_str key))
    end.
Proof.
  intros Hplain. pose proof (render_field_plain key Hplain) as Hfield.
  unfold Spec.plain_key in Hplain.
  apply andb_true_iff in Hplain as [Hk _]. apply andb_true_iff in Hk as [Hne Hk].
  cbn [Spec.written_piece].
  replace (("{" +:+ key +:+ "}") +:+ rest)
    with (String "{"%char (key +:+ String "}"%char rest))
    by (change (String "{"%char (key +:+ String "}"%char rest)
                = String "{"%char ((key +:+ "}") +:+ rest));
        now rewrite append_assoc).
  destruct key as [|c key]; [discriminate|].
  cbn [Spec.key_chars] in Hk. pose proof Hk as Hk'.
  apply andb_true_iff in Hk' as [Hc _].
  destruct (key_char_not c Hc) as (Ho & _).
  rewrite append_cons, scan_open by assumption.
  rewrite <- append_cons, scan_name by assumption.
  change (EmptyString +:+ String c key) with (String c key). rewrite Hfield.
  now destruct (dict_lookup context (String c key)).
Qed.

(** With every key present and every value convertible, formatting fills
    the placeholders in. *)
Lemma format_filled (ps : list Spec.piece) :
  values_have_text context = true ->
  forallb Spec.plain_piece ps = true ->
  forallb (Spec.hole_present context) ps = true ->
  Format.py_format context (Spec.written ps) = Ret (Spec.filled context ps).
Proof.
  unfold Format.py_format. intros Htext.
  induction ps as [|p ps IH]; [reflexivity|].
  cbn [forallb Spec.written Spec.filled]. intros Hplain Hkeys.
  apply andb_true_iff in Hplain as [Hp Hplain].
  apply andb_true_iff in Hkeys as [Hk Hkeys].
  specialize (IH Hplain Hkeys). destruct p as [s|key].
  - cbn [Spec.written_piece Spec.filled_piece]. rewrite scan_text by assumption.
    now rewrite IH.
  - rewrite scan_hole by assumption. cbn [Spec.filled_piece Spec.hole_present] in *.
    unfold dict_has in Hk. destruct (dict_lookup context key) as [v|] eqn:Hv; [|discriminate].
    rewrite (to_text_has_text v (values_have_text_lookup context key v Htext Hv)).
    cbn [obind]. now rewrite IH.
Qed.

(** With some key absent and every value convertible, formatting stops at
    the first such placeholder with a [KeyError]. *)
Lemma format_missing (ps : list Spec.piece) :
  values_have_text context = true ->
  forallb Spec.plain_piece ps = true ->
  forallb (Spec.hole_present context) ps = false ->
  exists key, Format.py_format context (Spec.written ps)
              = Raise (Exn KeyError (repr_str key)).
Proof.
  unfold Format.py_format. intros Htext.
  induction ps as [|p ps IH]; [discriminate|].
  cbn [forallb Spec.written]. intros Hplain Hkeys.
  apply andb_true_iff in Hplain as [Hp Hplain]. destruct p as [s|key].
  - cbn [Spec.hole_present andb] in Hkeys. destruct (IH Hplain Hkeys) as [k Hk].
    exists k. cbn [Spec.written_piece]. rewrite scan_text by assumption. now rewrite Hk.
  - rewrite scan_hole by assumption. cbn [Spec.hole_present] in Hkeys.
    unfold dict_has in Hkeys. destruct (dict_lookup context key) as [v|] eqn:Hv.
    + cbn [andb] in Hkeys. destruct (IH Hplain Hkeys) as [k Hk].
      exists k. rewrite (to_text_has_text v (values_have_text_lookup context key v Htext Hv)).
      cbn [obind]. now rewrite Hk.
    + now exists key.
Qed.

End FormatFacts.

(** Induction over templates, with the hypothesis available for every
    entry of a mapping and every element of a sequence. *)
Lemma tmpl_nested_ind (P : Spec.tmpl -> Prop) :
  (forall ps, P (Spec.Leaf ps)) ->
  (forall v, P (Spec.Other v)) ->
  (forall d, Forall (fun kv => P kv.2) d -> P (Spec.Mapping d)) ->
  (forall l, Forall P l -> P (Spec.Sequence l)) ->
  forall t, P t.
Proof.
  intros Hleaf Hother Hmap Hseq. fix IH 1. intros [ps|v|d|l].
  - apply Hleaf.
  - apply Hother.
  - apply Hmap. induction d as [|[k x] d IHd]; constructor; [apply IH | exact IHd].
  - apply Hseq. induction l as [|x l IHl]; constructor; [apply IH | exact IHl].
Qed.

Lemma omapM_map_ret {A B C} (f : B -> outcome C) (g : A -> B) (h : A -> C) (l : list A) :
  Forall (fun x => f (g x) = Ret (h x)) l -> omapM f (map g l) = Ret (map h l).
Proof.
  induction 1 as [|x l Hx _ IH]; [reflexivity|].
  cbn. rewrite Hx. cbn. now rewrite IH.
Qed.

Section RenderFacts.
Context `{Runtime}.


(** C8, amended: for a string leaf made of brace-free text and placeholders
    [{key}] with plain keys, at least one of them absent from the context,
    and a context whose values all have a text form, [render_template]
    returns the template text as it was written and raises nothing. *)
Theorem render_template_keeps_unfilled_leaf (ps : list Spec.piece) (context : pydict) :
  forallb Spec.plain_piece ps = true ->
  forallb (Spec.hole_present context) ps = false ->
  values_have_text context = true ->
  ReActTool.render_template (PStr (Spec.written ps)) context
  = Ret (PStr (Spec.written ps)).
Proof.
  intros Hplain Hkeys Htext. cbn [ReActTool.render_template].
  destruct (format_missing context ps Htext Hplain Hkeys) as [key ->]. reflexivity.
Qed.

End RenderFacts.


Lemma render_template_keeps_unfilled_leaf_witness :
  forallb Spec.plain_piece [Spec.Text "Search for "; Spec.Hole "term"] = true
  /\ forallb (Spec.hole_present [("query", PStr "cats")])
       [Spec.Text "Search for "; Spec.Hole "term"] = false
  /\ @values_have_text Mini.runtime [("query", PStr "cats")] = true
  /\ @ReActTool.render_template Mini.runtime (PStr "Search for {term}")
       [("query", PStr "cats")]
     = Ret (PStr "Search for {term}").
Proof.
  split; [reflexivity|]. split; [reflexivity|]. split; [reflexivity|].
  apply (@render_template_keeps_unfilled_leaf Mini.runtime
           [Spec.Text "Search for "; Spec.Hole "term"] [("query", PStr "cats")]);
    reflexivity.
Defined.


(** C8, as stated, fails: a leaf with a placeholder whose key is absent
    raises when a numeric or empty placeholder, a lone brace, or a
    placeholder whose value is an int of 4301 digits comes before it. *)
Lemma render_template_missing_key_counterexample :
  @ReActTool.render_template Mini.runtime (PStr "{0} {missing}") [("0", PStr "zero")]
    = Raise (Exn IndexError "Replacement index 0 out of range for positional args tuple")
  /\ @ReActTool.render_template Mini.runtime (PStr "{} {missing}") []
     = Raise (Exn IndexError "Replacement index 0 out of range for positional args tuple")
  /\ @ReActTool.render_template Mini.runtime (PStr "} {missing}") []
     = Raise (Exn ValueError "Single '}' encountered in format string")
  /\ @ReActTool.render_template Mini.runtime (PStr "{n} {missing}") [("n", PInt (10 ^ 4300))]
     = Raise int_text_error.
Proof. repeat split; vm_compute; reflexivity. Qed.

(** ** The job life cycle *)

Import Jobs.

Lemma edge_ahead (a b : job_status) : edge a b = true -> ahead a b = true.
Proof. now destruct a, b. Qed.

Lemma ahead_refl (a : job_status) : ahead a a = true.
Proof. now destruct a. Qed.

Lemma ahead_trans (a b c : job_status) :
  ahead a b = true -> ahead b c = true -> ahead a c = true.
Proof. now destruct a, b, c. Qed.

Lemma ahead_settled (a b : job_status) :
  settled a = true -> ahead a b = true -> b = a.
Proof. now destruct a, b. Qed.

Lemma tracked_other (store : gmap string job) (u : task) (job_id : string) (j : job) :
  Spec.tracked store u -> task_job u <> job_id ->
  Spec.tracked (<[job_id := j]> store) u.
Proof.
  intros (ju & Hu & Hc) Hne. exists ju. split; [|exact Hc].
  now rewrite lookup_insert_ne.
Qed.

(** One statement of a coroutine that is in step with its job: the job is
    rewritten along an edge of the life cycle or not at all, stays well
    formed, and the coroutine, if it goes on, is in step again. *)
Lemma task_step_shape (t : task) (o : http_outcome) (store : gmap string job) (j : job) :
  store !! task_job t = Some j ->
  Spec.consistent (at_pc t) j ->
  exists j' reqs t',
    task_step t o store = (<[task_job t := j']> store, reqs, t')
    /\ (status j' = status j \/ edge (status j) (status j') = true)
    /\ Spec.job_ok j'
    /\ (forall u, t' = Some u ->
                  task_job u = task_job t /\ Spec.consistent (at_pc u) j').
Proof.
  intros Hj (Hst & Hres & Herr). unfold task_step, assign. rewrite Hj.
  destruct j as [st res err]. cbn in Hst, Hres, Herr. subst res err.
  destruct (at_pc t) eqn:Hpc; cbn in Hst; subst st.
  - eexists _, _, _. split; [reflexivity|]. cbn.
    split; [now right|]. split; [now split|].
    intros u [= <-]. now cbn.
  - exists (Job Processing PNone PNone). rewrite insert_id by assumption.
    destruct (prepare t); eexists _, _; (split; [reflexivity|]);
      (split; [now left|]); (split; [now split|]); intros u [= <-]; now cbn.
  - exists (Job Processing PNone PNone). rewrite insert_id by assumption.
    destruct (finish t o); eexists _, _; (split; [reflexivity|]);
      (split; [now left|]); (split; [now split|]); intros u [= <-]; now cbn.
  - eexists _, _, _. split; [reflexivity|]. cbn.
    split; [now right|]. split; [now split|].
    intros u [= <-]. now cbn.
  - eexists _, _, _. split; [reflexivity|]. cbn.
    split; [now left|]. split; [now split|]. discriminate.
  - eexists _, _, _. split; [reflexivity|]. cbn.
    split; [now right|]. split; [now split|].
    intros u [= <-]. now cbn.
  - eexists _, _, _. split; [reflexivity|]. cbn.
    split; [now left|]. split; [now split|]. discriminate.
Qed.

Lemma invariant_empty : Spec.invariant empty_world.
Proof.
  split; [constructor|]. split; [constructor|]. apply map_Forall_empty.
Qed.

Lemma tracked_in_store (store : gmap string job) (ts : list task) (job_id : string) :
  Forall (Spec.tracked store) ts -> store !! job_id = None ->
  job_id ∉ task_job <$> ts.
Proof.
  intros Hall Hnone Hin. apply list_elem_of_fmap in Hin as (u & -> & Hin).
  rewrite Forall_forall in Hall. destruct (Hall u Hin) as (j & Hj & _). congruence.
Qed.

Lemma invariant_step (w w' : world) : Spec.invariant w -> step w w' -> Spec.invariant w'.
Proof.
  intros (Hdup & Htr & Hok) Hstep.
  destruct Hstep as [w job_id prep fin Hfresh | w job_id Hfresh
                    | w before t after o Htasks].
  - pose proof (tracked_in_store _ _ _ Htr Hfresh) as Hnew.
    unfold Spec.invariant, start_job, create_task, store_job.
    cbn [snd jobs tasks]. split; [|split].
    + rewrite fmap_app. cbn [fmap list_fmap task_job]. apply NoDup_app. split; [exact Hdup|]. split.
      * intros x Hx Hx'. apply list_elem_of_singleton in Hx'. now subst x.
      * apply NoDup_singleton.
    + apply Forall_app. split.
      * eapply Forall_impl; [exact Htr|]. intros u Hu. apply tracked_other; [exact Hu|].
        intros Heq. destruct Hu as (j & Hj & _). congruence.
      * constructor; [|constructor]. exists new_job. cbn.
        split; [apply lookup_insert_eq | now repeat split].
    + apply map_Forall_insert_2; [|exact Hok]. now split.
  - unfold Spec.invariant, store_job. cbn [jobs tasks]. split; [exact Hdup|]. split.
    + eapply Forall_impl; [exact Htr|]. intros u Hu. apply tracked_other; [exact Hu|].
      intros Heq. destruct Hu as (j & Hj & _). congruence.
    + apply map_Forall_insert_2; [|exact Hok]. now split.
  - rewrite Htasks in Hdup, Htr.
    apply Forall_app in Htr as [Hbefore Ht]. apply Forall_cons in Ht as [Ht Hafter].
    rewrite fmap_app, fmap_cons in Hdup.
    apply NoDup_app in Hdup as (Hdb & Hcross & Hda).
    apply NoDup_cons in Hda as [Hta Hda].
    assert (Hbt : task_job t ∉ task_job <$> before)
      by (intros Hin; apply (Hcross _ Hin); left).
    destruct Ht as (j & Hj & Hc).
    destruct (task_step_shape t o (jobs w) j Hj Hc) as (j' & reqs & t' & Heq & _ & Hok' & Hnext).
    unfold Spec.invariant, resume. rewrite Heq. cbn [jobs tasks].
    assert (Hothers : forall us, task_job t ∉ task_job <$> us ->
                                 Forall (Spec.tracked (jobs w)) us ->
                                 Forall (Spec.tracked (<[task_job t := j']> (jobs w))) us).
    { intros us Hnot Hus. rewrite Forall_forall in Hus. apply Forall_forall.
      intros u Hu. apply tracked_other; [now apply Hus|].
      intros Heq'. apply Hnot. rewrite <- Heq'. now apply list_elem_of_fmap_2. }
    split; [|split].
    + rewrite !fmap_app. apply NoDup_app. split; [exact Hdb|]. split.
      * intros x Hx Hx'. apply elem_of_app in Hx' as [Hx'|Hx'].
        -- destruct t' as [u|]; [|now apply elem_of_nil in Hx'].
           cbn in Hx'. apply list_elem_of_singleton in Hx'. subst x.
           destruct (Hnext u eq_refl) as [Hid _]. rewrite Hid in Hx. contradiction.
        -- apply (Hcross _ Hx). now right.
      * apply NoDup_app. split; [|split; [|exact Hda]].
        -- destruct t'; cbn; [apply NoDup_singleton | constructor].
        -- intros x Hx Hx'. destruct t' as [u|]; [|now apply elem_of_nil in Hx].
           cbn in Hx. apply list_elem_of_singleton in Hx. subst x.
           destruct (Hnext u eq_refl) as [Hid _]. rewrite Hid in Hx'. contradiction.
    + apply Forall_app. split; [now apply Hothers|]. apply Forall_app. split.
      * destruct t' as [u|]; [|constructor]. constructor; [|constructor].
        destruct (Hnext u eq_refl) as [Hid Hcu]. exists j'. rewrite Hid.
        split; [apply lookup_insert_eq | exact Hcu].
      * now apply Hothers.
    + now apply map_Forall_insert_2.
Qed.

Lemma invariant_steps (w w' : world) :
  Spec.invariant w -> rtc step w w' -> Spec.invariant w'.
Proof. intros Hinv Hsteps. induction Hsteps; eauto using invariant_step. Qed.

Lemma invariant_reachable (w : world) : reachable w -> Spec.invariant w.
Proof. apply invariant_steps, invariant_empty. Qed.

(** One step of the event loop moves the status of a job along an edge of
    the life cycle, or leaves it. *)
Lemma step_edge (w w' : world) (job_id : string) (j : job) :
  Spec.invariant w -> step w w' -> jobs w !! job_id = Some j ->
  exists j', jobs w' !! job_id = Some j'
             /\ (status j' = status j \/ edge (status j) (status j') = true).
Proof.
  intros (_ & Htr & _) Hstep Hj.
  destruct Hstep as [w new_id prep fin Hfresh | w new_id Hfresh
                    | w before t after o Htasks].
  - exists j. cbn. split; [|now left].
    rewrite lookup_insert_ne; [exact Hj | congruence].
  - exists j. cbn. split; [|now left].
    rewrite lookup_insert_ne; [exact Hj | congruence].
  - rewrite Htasks in Htr. apply Forall_app in Htr as [_ Ht].
    apply Forall_cons in Ht as [(jt & Hjt & Hc) _].
    destruct (task_step_shape t o (jobs w) jt Hjt Hc) as (j' & reqs & t' & Heq & Hedge & _).
    unfold resume. rewrite Heq. cbn [jobs].
    destruct (decide (task_job t = job_id)) as [<-|Hne].
    + exists j'. rewrite lookup_insert_eq. split; [reflexivity|]. congruence.
    + exists j. rewrite lookup_insert_ne by assumption. split; [exact Hj | now left].
Qed.

Lemma steps_ahead (w w' : world) (job_id : string) (j : job) :
  Spec.invariant w -> rtc step w w' -> jobs w !! job_id = Some j ->
  exists j', jobs w' !! job_id = Some j' /\ ahead (status j) (status j') = true.
Proof.
  intros Hinv Hsteps. revert j. induction Hsteps as [w|w w1 w2 Hstep Hsteps IH]; intros j Hj.
  - exists j. split; [exact Hj | apply ahead_refl].
  - destruct (step_edge w w1 job_id j Hinv Hstep Hj) as (j1 & Hj1 & Hedge).
    destruct (IH (invariant_step _ _ Hinv Hstep) j1 Hj1) as (j2 & Hj2 & Hahead).
    exists j2. split; [exact Hj2|]. apply (ahead_trans _ (status j1)); [|exact Hahead].
    destruct Hedge as [->|Hedge]; [apply ahead_refl | now apply edge_ahead].
Qed.

(** C6: in every world the event loop can reach, a job that exists keeps
    existing; over any number of further steps its status only moves ahead
    along pending, processing, then complete or error, and stays what it is
    once it is complete or error; its result is set only under complete, its
    error only under error, never both; and each single step moves the
    status along one edge of that life cycle or leaves it. *)
Theorem job_lifecycle (w w' : world) (job_id : string) (j : job) :
  reachable w -> rtc step w w' -> jobs w !! job_id = Some j ->
  exists j',
    jobs w' !! job_id = Some j'
    /\ ahead (status j) (status j') = true
    /\ (settled (status j) = true -> status j' = status j)
    /\ (result j' <> PNone -> status j' = Complete)
    /\ (error j' <> PNone -> status j' = Failed)
    /\ (result j' = PNone \/ error j' = PNone)
    /\ (forall w'', step w' w'' ->
          exists j'', jobs w'' !! job_id = Some j''
                      /\ (status j'' = status j'
                          \/ edge (status j') (status j'') = true)).
Proof.
  intros Hreach Hsteps Hj. pose proof (invariant_reachable w Hreach) as Hinv.
  pose proof (invariant_steps w w' Hinv Hsteps) as Hinv'.
  destruct (steps_ahead w w' job_id j Hinv Hsteps Hj) as (j' & Hj' & Hahead).
  exists j'. split; [exact Hj'|]. split; [exact Hahead|].
  destruct Hinv' as (Hdup & Htr & Hok). destruct (Hok job_id j' Hj') as [Hres Herr].
  split; [intros Hs; now apply ahead_settled|].
  split; [exact Hres|]. split; [exact Herr|]. split.
  - destruct (result j') eqn:Hr; try (now left).
    all: destruct (error j') eqn:He; try (now right).
    all: exfalso; assert (Complete = Failed) by
        (rewrite <- Hres, <- Herr; [reflexivity | congruence | congruence]);
      discriminate.
  - intros w'' Hstep. apply (step_edge w' w'' job_id j'); [|exact Hstep|exact Hj'].
    now split.
Qed.

Lemma demo_reachable : reachable Demo.w1.
Proof.
  apply (rtc_l _ _ Demo.w1 _); [|apply rtc_refl].
  exact (step_start empty_world "job-1" (prepare Demo.coroutine) (finish Demo.coroutine)
           eq_refl).
Defined.

Lemma demo_run : rtc step Demo.w1 Demo.w6.
Proof.
  apply (rtc_l _ _ Demo.w2 _); [exact (step_task Demo.w1 [] _ [] Demo.reply eq_refl)|].
  apply (rtc_l _ _ Demo.w3 _); [exact (step_task Demo.w2 [] _ [] Demo.reply eq_refl)|].
  apply (rtc_l _ _ Demo.w4 _); [exact (step_task Demo.w3 [] _ [] Demo.reply eq_refl)|].
  apply (rtc_l _ _ Demo.w5 _); [exact (step_task Demo.w4 [] _ [] Demo.reply eq_refl)|].
  apply (rtc_l _ _ Demo.w6 _); [exact (step_task Demo.w5 [] _ [] Demo.reply eq_refl)|].
  apply rtc_refl.
Defined.

(** The run of [Demo]: the job is pending when [run_async] returns and,
    once its coroutine has ended, complete with the page address as its
    result and no error. *)
Example demo_outcome :
  get_job_status "job-1" Demo.w1
    = PDict [("status", PStr "pending"); ("result", PNone); ("error", PNone)]
  /\ get_job_status "job-1" Demo.w3
     = PDict [("status", PStr "processing"); ("result", PNone); ("error", PNone)]
  /\ get_job_status "job-1" Demo.w6
     = PDict [("status", PStr "complete"); ("result", Demo.page_url); ("error", PNone)]
  /\ tasks Demo.w6 = []
  /\ get_job_status "job-2" Demo.w6 = PDict [("error", PStr "Invalid job ID")].
Proof. repeat split; vm_compute; reflexivity. Qed.

Lemma job_lifecycle_witness :
  reachable Demo.w1
  /\ rtc step Demo.w1 Demo.w6
  /\ jobs Demo.w1 !! "job-1" = Some new_job
  /\ exists j',
       jobs Demo.w6 !! "job-1" = Some j'
       /\ ahead (status new_job) (status j') = true
       /\ (settled (status new_job) = true -> status j' = status new_job)
       /\ (result j' <> PNone -> status j' = Complete)
       /\ (error j' <> PNone -> status j' = Failed)
       /\ (result j' = PNone \/ error j' = PNone)
       /\ (forall w'', step Demo.w6 w'' ->
             exists j'', jobs w'' !! "job-1" = Some j''
                         /\ (status j'' = status j'
                             \/ edge (status j') (status j'') = true)).
Proof.
  split; [exact demo_reachable|]. split; [exact demo_run|]. split; [reflexivity|].
  exact (job_lifecycle Demo.w1 Demo.w6 "job-1" new_job demo_reachable demo_run eq_refl).
Defined.

(** * Further properties of the code *)

(** ** Rendering of arbitrary templates *)

Lemma omapM_inv {A B} (f : A -> outcome B) (l : list A) (l' : list B) :
  omapM f l = Ret l' -> Forall2 (fun x y => f x = Ret y) l l'.
Proof.
  revert l'. induction l as [|x l IH]; intros l' Hm; cbn in Hm.
  - injection Hm as <-. constructor.
  - destruct (f x) as [y|e] eqn:Hx; [|discriminate]. cbn in Hm.
    destruct (omapM f l) as [ys|e]; [|discriminate]. cbn in Hm.
    injection Hm as <-. constructor; [exact Hx | now apply IH].
Qed.

Lemma omap_ret_inv {A B} (f : A -> B) (m : outcome A) (b : B) :
  omap f m = Ret b -> exists a, m = Ret a /\ b = f a.
Proof. destruct m as [a|e]; cbn; [|discriminate]. intros [= <-]. now exists a. Qed.

Section RenderShape.
Context `{Runtime}.

(** Whatever the template and the context, a rendering that returns has
    the shape of the template: text stays text, a mapping keeps its keys in
    their order, a sequence keeps its length, and every other leaf comes
    back as it is. *)
Theorem render_template_same_shape (template rendered : pyval) (context : pydict) :
  ReActTool.render_template template context = Ret rendered ->
  Spec.same_shape template rendered = true.
Proof.
  revert rendered.
  induction template as [|b|n|s|l IH|d IH] using pyval_nested_ind; intros rendered Hr.
  - injection Hr as <-. reflexivity.
  - injection Hr as <-. cbn. now destruct b.
  - injection Hr as <-. cbn. apply Z.eqb_refl.
  - cbn [ReActTool.render_template] in Hr.
    destruct (Format.py_format context s) as [r|e].
    + now injection Hr as <-.
    + destruct (exn_class e); try discriminate. now injection Hr as <-.
  - cbn [ReActTool.render_template] in Hr.
    apply omap_ret_inv in Hr as (l' & Hm & ->). apply omapM_inv in Hm.
    cbn [Spec.same_shape]. induction Hm as [|x y l l' Hx _ IHm]; [reflexivity|].
    apply Forall_cons in IH as [IHx IHl].
    rewrite (IHx y Hx). cbn [andb]. now apply IHm.
  - cbn [ReActTool.render_template] in Hr.
    apply omap_ret_inv in Hr as (d' & Hm & ->). apply omapM_inv in Hm.
    cbn [Spec.same_shape]. induction Hm as [|[k x] [k' y] d d' Hx _ IHm]; [reflexivity|].
    apply Forall_cons in IH as [IHx IHd]. cbn [snd] in IHx.
    apply omap_ret_inv in Hx as (y' & Hx & [= -> ->]).
    rewrite String.eqb_refl, (IHx y' Hx). cbn [andb]. now apply IHm.
Qed.

(** Rendering a plain template, leaf by leaf. *)
Lemma render_plain (t : Spec.tmpl) (context : pydict) :
  values_have_text context = true ->
  Spec.plain_tree t = true ->
  ReActTool.render_template (Spec.written_tree t) context
  = Ret (Spec.rendered_tree context t).
Proof.
  intros Htext.
  induction t as [ps|v|d IH|l IH] using tmpl_nested_ind; intros Hplain.
  - cbn [Spec.written_tree ReActTool.render_template Spec.rendered_tree].
    cbn [Spec.plain_tree] in Hplain. unfold Spec.rendered_leaf.
    destruct (forallb (Spec.hole_present context) ps) eqn:Hkeys.
    + now rewrite format_filled.
    + destruct (format_missing context ps Htext Hplain Hkeys) as [key ->]. reflexivity.
  - cbn [Spec.plain_tree] in Hplain. now destruct v.
  - cbn [Spec.written_tree ReActTool.render_template Spec.rendered_tree].
    cbn [Spec.plain_tree] in Hplain.
    erewrite omapM_map_ret; [reflexivity|].
    revert Hplain. induction IH as [|[k x] d Hx _ IHd]; intros Hplain; [constructor|].
    cbn [forallb] in Hplain. apply andb_true_iff in Hplain as [Hp Hplain].
    constructor; [|now apply IHd]. cbn [snd] in Hx. now rewrite Hx.
  - cbn [Spec.written_tree ReActTool.render_template Spec.rendered_tree].
    cbn [Spec.plain_tree] in Hplain.
    erewrite omapM_map_ret; [reflexivity|].
    revert Hplain. induction IH as [|x l Hx _ IHl]; intros Hplain; [constructor|].
    cbn [forallb] in Hplain. apply andb_true_iff in Hplain as [Hp Hplain].
    constructor; [now apply Hx | now apply IHl].
Qed.


End RenderShape.

Lemma render_template_same_shape_witness :
  @ReActTool.render_template Mini.runtime
     (PDict [("inputs", PList [PStr "{a}"; PStr "{{x}}"; PInt 3]); ("n", PNone)])
     [("a", PBool true)]
   = Ret (PDict [("inputs", PList [PStr "True"; PStr "{x}"; PInt 3]); ("n", PNone)])
  /\ Spec.same_shape
       (PDict [("inputs", PList [PStr "{a}"; PStr "{{x}}"; PInt 3]); ("n", PNone)])
       (PDict [("inputs", PList [PStr "True"; PStr "{x}"; PInt 3]); ("n", PNone)])
     = true.
Proof.
  assert (Hr : @ReActTool.render_template Mini.runtime
     (PDict [("inputs", PList [PStr "{a}"; PStr "{{x}}"; PInt 3]); ("n", PNone)])
     [("a", PBool true)]
   = Ret (PDict [("inputs", PList [PStr "True"; PStr "{x}"; PInt 3]); ("n", PNone)]))
    by reflexivity.
  split; [exact Hr|].
  exact (@render_template_same_shape Mini.runtime _ _ _ Hr).
Defined.


(** ** The configured tools *)


Lemma is_empty_append (a b : string) : is_empty a = false -> is_empty (a +:+ b) = false.
Proof. now destruct a. Qed.

Section ToolFacts.
Context `{Runtime}.

(** What the body of the loop returns is the truthy output it tested. *)
Lemma check_line_truthy (line : string) (r : pyval) :
  Stream.check_line line = Ret (Some r) -> truthy r = true.
Proof.
  unfold Stream.check_line. destruct (json_loads line) as [chunk|]; [|discriminate].
  destruct chunk as [| | | |l|d]; try discriminate. cbn [py_get obind py_getitem].
  destruct (negb (py_eq_text _ "chunk")); [discriminate|].
  destruct (dict_lookup d "value") as [value|] eqn:Hval.
  - destruct value as [| | | |l|v]; try discriminate. cbn [py_get obind py_getitem].
    destruct (negb (py_eq_text _ "code")); [discriminate|]. cbn [obind].
    destruct (dict_lookup v "output") as [output|] eqn:Hout.
    + destruct (truthy output) eqn:Ht; cbn [negb]; [|discriminate].
      cbn. intros [= <-]. exact Ht.
    + cbn. discriminate.
  - cbn. discriminate.
Qed.

Lemma scan_lines_truthy (not_found : string) (lines : list string) (r : pyval) :
  is_empty not_found = false ->
  Stream.scan_lines not_found lines = Ret r -> truthy r = true.
Proof.
  intros Hnf. induction lines as [|line lines IH]; cbn.
  - intros [= <-]. cbn. now rewrite Hnf.
  - destruct (is_empty (strip line)); [exact IH|].
    destruct (Stream.check_line line) as [[x|]|e] eqn:Hline; [|exact IH|discriminate].
    intros [= <-]. exact (check_line_truthy line x Hline).
Qed.

(** Whatever [process_response] returns is truthy: the sentinel, or an
    output that passed the truth test.  It never returns an empty text,
    [None], zero or an empty container. *)
Theorem process_response_truthy (response_text : string) (r : pyval) :
  ReActTool.process_response response_text = Ret r -> truthy r = true.
Proof. apply scan_lines_truthy. reflexivity. Qed.


(** What the body of the loop returns is part of a decoded chunk, and so
    has a text form. *)
Lemma check_line_has_text (line : string) (r : pyval) :
  Stream.check_line line = Ret (Some r) -> has_text r = true.
Proof.
  unfold Stream.check_line. destruct (json_loads line) as [chunk|] eqn:Hdec; [|discriminate].
  apply json_loads_text in Hdec.
  destruct chunk as [| | | |l|d]; try discriminate. cbn [py_get obind py_getitem].
  destruct (negb (py_eq_text _ "chunk")); [discriminate|].
  destruct (dict_lookup d "value") as [value|] eqn:Hval; [|cbn; discriminate].
  pose proof (text_fault_lookup _ d "value" value Hdec Hval) as Hvalue.
  destruct value as [| | | |l|v]; try discriminate. cbn [py_get obind py_getitem].
  destruct (negb (py_eq_text _ "code")); [discriminate|]. cbn [obind].
  destruct (dict_lookup v "output") as [output|] eqn:Hout; [|cbn; discriminate].
  pose proof (text_fault_lookup _ v "output" output Hvalue Hout) as Houtput.
  destruct (truthy output); cbn [negb]; [|discriminate].
  cbn. intros [= <-]. apply has_text_fault. unfold room.
  now apply text_fault_mono, text_fault_mono.
Qed.

Lemma scan_lines_has_text (not_found : string) (lines : list string) (r : pyval) :
  Stream.scan_lines not_found lines = Ret r -> has_text r = true.
Proof.
  induction lines as [|line lines IH]; cbn.
  - now intros [= <-].
  - destruct (is_empty (strip line)); [exact IH|].
    destruct (Stream.check_line line) as [[x|]|e] eqn:Hline; [|exact IH|discriminate].
    intros [= <-]. exact (check_line_has_text line x Hline).
Qed.

(** What [call_api] returns is a text, or part of a decoded chunk: it has
    a text form. *)
Lemma call_api_finish_has_text (o : http_outcome) :
  has_text (ReActTool.call_api_finish o) = true.
Proof.
  unfold ReActTool.call_api_finish. destruct o as [status_code text|e]; [|reflexivity].
  destruct (negb (status_code =? 200)); [reflexivity|].
  destruct (ReActTool.process_response text) as [r|e] eqn:Hr; [|reflexivity].
  exact (scan_lines_has_text "No output found" _ r Hr).
Qed.

(** [run] returns the failure text of its [except], or what [call_api]
    made of the answer after one request. *)
Lemma run_cases (self : ReActTool.DynamicWordwareTool) (kwargs : pydict) (w : Jobs.world) :
  (exists e, ReActTool.run self kwargs w = (ReActTool.run_failed e, w))
  \/ (exists payload,
        ReActTool.render_payload self kwargs = Ret payload
        /\ ReActTool.run self kwargs w
           = (ReActTool.call_api_finish (http_post (ReActTool.api_url self) payload),
              Jobs.send (Jobs.Request (ReActTool.api_url self) payload) w)).
Proof.
  unfold ReActTool.run, ReActTool.call_api, ReActTool.call_api_request.
  destruct (to_text (PDict kwargs)) as [shown|e]; [|left; now exists e].
  destruct (ReActTool.render_payload self kwargs) as [payload|e]; [|left; now exists e].
  destruct (to_text payload) as [shown'|e]; cbn [omap obind]; [|left; now exists e].
  cbn [Jobs.req_url Jobs.req_json].
  rewrite (to_text_has_text _ (call_api_finish_has_text _)).
  right. now exists payload.
Qed.



(** Neither the result of [run] nor its request depends on the world it
    starts from. *)
Lemma run_any_world (self : ReActTool.DynamicWordwareTool) (kwargs : pydict)
    (w w' : Jobs.world) :
  (ReActTool.run self kwargs w).1 = (ReActTool.run self kwargs w').1.
Proof.
  unfold ReActTool.run, ReActTool.call_api.
  destruct (to_text (PDict kwargs)); [|reflexivity].
  destruct (ReActTool.render_payload self kwargs) as [payload|]; [|reflexivity].
  destruct (ReActTool.call_api_request self payload); [|reflexivity].
  cbn. now destruct (to_text _).
Qed.


(** A tool with a plain payload template, keyword arguments that have a
    text form and a rendered payload that has one: the payload is rendered
    and the request is sent. *)
Lemma run_plain (self : ReActTool.DynamicWordwareTool) (t : Spec.tmpl)
    (kwargs : pydict) (w : Jobs.world) :
  Spec.written_tree t = ReActTool.payload_template self ->
  Spec.plain_tree t = true ->
  has_text (PDict kwargs) = true ->
  has_text (Spec.rendered_tree kwargs t) = true ->
  ReActTool.render_payload self kwargs = Ret (Spec.rendered_tree kwargs t)
  /\ ReActTool.call_api_request self (Spec.rendered_tree kwargs t)
     = Ret (Jobs.Request (ReActTool.api_url self) (Spec.rendered_tree kwargs t))
  /\ ReActTool.run self kwargs w
     = (ReActTool.call_api_finish
          (http_post (ReActTool.api_url self) (Spec.rendered_tree kwargs t)),
        Jobs.send (Jobs.Request (ReActTool.api_url self) (Spec.rendered_tree kwargs t)) w).
Proof.
  intros Hw Hplain Htext Hrendered.
  assert (Hr : ReActTool.render_payload self kwargs = Ret (Spec.rendered_tree kwargs t)).
  { unfold ReActTool.render_payload. rewrite <- Hw.
    rewrite (render_plain t kwargs (has_text_values kwargs Htext) Hplain). cbn [obind].
    rewrite (to_text_has_text _ Htext). cbn [obind].
    now rewrite (to_text_has_text _ Hrendered). }
  assert (Hc : ReActTool.call_api_request self (Spec.rendered_tree kwargs t)
               = Ret (Jobs.Request (ReActTool.api_url self) (Spec.rendered_tree kwargs t))).
  { unfold ReActTool.call_api_request. now rewrite (to_text_has_text _ Hrendered). }
  split; [exact Hr|]. split; [exact Hc|].
  unfold ReActTool.run, ReActTool.call_api.
  rewrite (to_text_has_text _ Htext), Hr, Hc. cbn [Jobs.req_url Jobs.req_json].
  now rewrite (to_text_has_text _ (call_api_finish_has_text _)).
Qed.



End ToolFacts.

Lemma process_response_truthy_witness :
  @ReActTool.process_response Mini.runtime (Mini.code_chunk "X") = Ret (PStr "X")
  /\ truthy (PStr "X") = true.
Proof.
  assert (Hr : @ReActTool.process_response Mini.runtime (Mini.code_chunk "X")
               = Ret (PStr "X")) by (vm_compute; reflexivity).
  split; [exact Hr|].
  exact (@process_response_truthy Mini.runtime _ _ Hr).
Defined.


(** ** Dispatch *)

Lemma registry_names (tool : string) :
  dict_has ReActTool.dynamic_tools tool = true
  <-> tool ∈ ["notion_page"; "google_search"; "wikipedia_lookup"; "google_news"].
Proof.
  unfold dict_has, ReActTool.dynamic_tools. cbn -[String.eqb].
  repeat match goal with
         | |- context [String.eqb ?a tool] =>
             destruct (String.eqb_spec a tool) as [<-|?]
         end; split; intros Hin; try discriminate; try reflexivity;
    try (repeat first [apply list_elem_of_here | apply list_elem_of_further]; fail).
  repeat (apply elem_of_cons in Hin as [->|Hin]; [congruence|]).
  now apply elem_of_nil in Hin.
Qed.

Lemma write_write (a b : string) (w : Jobs.world) :
  Jobs.write b (Jobs.write a w) = Jobs.write (a +:+ b) w.
Proof. unfold Jobs.write. cbn. now rewrite append_assoc. Qed.

Lemma omapM_ret {A B} (f : A -> outcome B) (h : A -> B) (l : list A) :
  Forall (fun x => f x = Ret (h x)) l -> omapM f l = Ret (map h l).
Proof.
  induction 1 as [|x l Hx _ IH]; [reflexivity|].
  cbn. rewrite Hx. cbn. now rewrite IH.
Qed.

Section DispatchFacts.
Context `{Runtime}.

(** The values of arguments that have a text form are joined without an
    exception. *)
Lemma join_values_text (keep : string -> bool) (inputs : pydict) :
  has_text (PDict inputs) = true ->
  ReActTool.join_values keep inputs = Ret (Spec.joined keep inputs).
Proof.
  intros Htext. unfold ReActTool.join_values, Spec.joined.
  rewrite (omapM_ret _ (fun kv => py_str kv.2)); [reflexivity|].
  apply Forall_forall. intros [k v] Hin. apply list_elem_of_filter in Hin as [_ Hin].
  apply to_text_has_text. pose proof (has_text_values inputs Htext) as Hall.
  unfold values_have_text in Hall. rewrite forallb_forall in Hall.
  apply (Hall (k, v)). now apply list_elem_of_In.
Qed.

Lemma search_tool_registered (tool : string) :
  ReActTool.is_search_tool tool = true ->
  exists selected, dict_lookup ReActTool.dynamic_tools tool = Some selected.
Proof.
  unfold ReActTool.is_search_tool. intros Hs.
  apply orb_true_iff in Hs as [Hs|Hs]; apply String.eqb_eq in Hs; subst tool;
    eexists; reflexivity.
Qed.

Lemma search_tool_normalized (tool : string) (inputs : pydict) :
  ReActTool.is_search_tool tool = true ->
  has_text (PDict inputs) = true ->
  ReActTool.normalize_inputs tool inputs
    = Ret [("query", PStr (Spec.joined (fun _ => true) inputs))].
Proof.
  intros Hs Htext. unfold ReActTool.normalize_inputs.
  now rewrite Hs, join_values_text.
Qed.

Lemma news_tool_normalized (inputs : pydict) :
  has_text (PDict inputs) = true ->
  ReActTool.normalize_inputs "google_news" inputs
    = Ret [("news", PStr (Spec.joined (fun key => negb (ReActTool.reserved_key key)) inputs))].
Proof.
  intros Htext. unfold ReActTool.normalize_inputs. cbn [ReActTool.is_search_tool].
  cbn -[ReActTool.join_values]. now rewrite join_values_text.
Qed.


(** A dispatch whose arguments have a text form, up to the call of the
    tool and from there on. *)
Lemma dispatch_run (user_command tool : string) (inputs processed : pydict)
    (selected : ReActTool.DynamicWordwareTool) (w : Jobs.world) :
  has_text (PDict inputs) = true ->
  dict_lookup ReActTool.dynamic_tools tool = Some selected ->
  ReActTool.normalize_inputs tool inputs = Ret processed ->
  has_text (PDict processed) = true ->
  dict_has processed "self" = false ->
  ReActTool.handle_user_request user_command tool inputs w
  = let ran :=
      ReActTool.run selected processed
        (Cases.before_run user_command tool inputs processed w) in
    if contains "multi-step" (lower user_command) then
      let agent := ReActTool.call_react_agent user_command processed ran.1 in
      (agent.2,
       Jobs.write agent.1
         (Jobs.print "handle_user_request: Delegating to ReAct agent for additional processing..." ran.2))
    else
      (Ret ran.1,
       Jobs.print "handle_user_request: Returning initial result without additional processing." ran.2).
Proof.
  intros Htext Hsel Hnorm Hprocessed Hself. unfold ReActTool.handle_user_request.
  rewrite (to_text_has_text _ Htext), Hsel, Hnorm, (to_text_has_text _ Hprocessed).
  unfold ReActTool.call_run. rewrite Hself. cbv zeta.
  replace (Jobs.print _ (Jobs.print _ (Jobs.print _ (Jobs.print _ w))))
    with (Cases.before_run user_command tool inputs processed w).
  2:{ unfold Cases.before_run, Cases.dispatch_preamble, Jobs.print, ReActTool.out_line.
      rewrite !write_write. f_equal. cbn [py_str]. now rewrite !append_assoc. }
  destruct (ReActTool.run selected processed _) as [r w']. cbn [fst snd].
  destruct (contains "multi-step" (lower user_command)); [|reflexivity].
  now destruct (ReActTool.call_react_agent user_command processed r).
Qed.

(** A dispatch whose arguments have no text form ends when it builds the
    line that quotes them: two lines are written and nothing else
    happens. *)
Lemma dispatch_unquotable (user_command tool : string) (inputs : pydict) (w : Jobs.world) :
  has_text (PDict inputs) = false ->
  exists e,
    text_fault room (PDict inputs) = Some e
    /\ ReActTool.handle_user_request user_command tool inputs w
       = (Raise e,
          Jobs.print ("handle_user_request: Claude selected tool '" +:+ tool +:+ "'")
            (Jobs.print ("handle_user_request: Received user command: " +:+ user_command) w)).
Proof.
  unfold has_text, ReActTool.handle_user_request, to_text.
  destruct (text_fault room (PDict inputs)) as [e|]; [|discriminate].
  intros _. now exists e.
Qed.

(** C9, amended: when the tool name is not in the registry and the
    arguments have a text form, [handle_user_request] returns the text
    "Tool '<name>' not available.", sends no request and creates no job
    and no coroutine; its one effect is that it writes three lines to
    standard output: the command, the tool name and the arguments. *)
Theorem unknown_tool_rejected
    (user_command tool : string) (inputs : pydict) (w : Jobs.world) :
  dict_has ReActTool.dynamic_tools tool = false ->
  has_text (PDict inputs) = true ->
  let w' := (ReActTool.handle_user_request user_command tool inputs w).2 in
  (ReActTool.handle_user_request user_command tool inputs w).1
    = Ret (PStr ("Tool '" +:+ tool +:+ "' not available."))
  /\ Jobs.sent w' = Jobs.sent w
  /\ Jobs.jobs w' = Jobs.jobs w
  /\ Jobs.tasks w' = Jobs.tasks w
  /\ Jobs.stdout w'
     = Jobs.stdout w
       +:+ (ReActTool.out_line ("handle_user_request: Received user command: " +:+ user_command)
            +:+ ReActTool.out_line ("handle_user_request: Claude selected tool '" +:+ tool +:+ "'")
            +:+ ReActTool.out_line ("handle_user_request: Raw inputs: " +:+ py_repr (PDict inputs))).
Proof.
  unfold dict_has. intros Htool Htext. unfold ReActTool.handle_user_request.
  rewrite (to_text_has_text _ Htext).
  destruct (dict_lookup ReActTool.dynamic_tools tool); [discriminate|].
  cbv zeta. cbn [fst snd Jobs.sent Jobs.jobs Jobs.tasks Jobs.stdout Jobs.print Jobs.write].
  repeat (split; [reflexivity|]).
  unfold ReActTool.out_line. cbn [py_str]. now rewrite !append_assoc.
Qed.

(** C1: a command that mentions "multi-step" together with one of the
    search tools.  The call raises whatever the arguments are, where a text
    is promised.  When the arguments have a text form, the tool runs, and
    the hand-over to [react_agent] then raises a [TypeError], because the
    normalized arguments carry [query] where the agent takes [title] and
    [body]; otherwise the call has failed earlier, when it quoted the
    arguments. *)
Theorem multi_step_search_raises
    (user_command tool : string) (inputs : pydict) (w : Jobs.world) :
  contains "multi-step" (lower user_command) = true ->
  ReActTool.is_search_tool tool = true ->
  (exists e, (ReActTool.handle_user_request user_command tool inputs w).1 = Raise e)
  /\ (has_text (PDict inputs) = true ->
      (ReActTool.handle_user_request user_command tool inputs w).1
        = Raise (ReActTool.call_error "got an unexpected keyword argument 'query'")).
Proof.
  intros Hcmd Htool.
  assert (Hgood : has_text (PDict inputs) = true ->
                  (ReActTool.handle_user_request user_command tool inputs w).1
                  = Raise (ReActTool.call_error "got an unexpected keyword argument 'query'")).
  { intros Htext. destruct (search_tool_registered tool Htool) as [selected Hsel].
    rewrite (dispatch_run user_command tool inputs _ selected w Htext Hsel
               (search_tool_normalized tool inputs Htool Htext) eq_refl eq_refl).
    cbv zeta. now rewrite Hcmd. }
  split; [|exact Hgood].
  destruct (has_text (PDict inputs)) eqn:Htext; [eexists; now apply Hgood|].
  destruct (dispatch_unquotable user_command tool inputs w Htext) as (e & _ & ->).
  now exists e.
Qed.

(** Without "multi-step" in the command and with arguments that have a
    text form, a search tool or the news tool hands back what the tool's
    [run] returned on the normalized arguments, which is a value and never
    an exception. *)
Theorem dispatch_direct_result
    (user_command tool : string) (inputs : pydict) (w : Jobs.world) :
  contains "multi-step" (lower user_command) = false ->
  tool ∈ ["google_search"; "wikipedia_lookup"; "google_news"] ->
  has_text (PDict inputs) = true ->
  exists selected processed,
    dict_lookup ReActTool.dynamic_tools tool = Some selected
    /\ ReActTool.normalize_inputs tool inputs = Ret processed
    /\ (ReActTool.handle_user_request user_command tool inputs w).1
       = Ret (ReActTool.run selected processed w).1.
Proof.
  intros Hcmd Htool Htext.
  repeat (apply elem_of_cons in Htool as [->|Htool]);
    [| | |now apply elem_of_nil in Htool].
  - eexists _, _. split; [reflexivity|].
    split; [exact (search_tool_normalized "google_search" inputs eq_refl Htext)|].
    rewrite (dispatch_run user_command "google_search" inputs _ _ w Htext eq_refl
               (search_tool_normalized "google_search" inputs eq_refl Htext) eq_refl eq_refl).
    cbv zeta. rewrite Hcmd. cbn [fst]. f_equal. apply run_any_world.
  - eexists _, _. split; [reflexivity|].
    split; [exact (search_tool_normalized "wikipedia_lookup" inputs eq_refl Htext)|].
    rewrite (dispatch_run user_command "wikipedia_lookup" inputs _ _ w Htext eq_refl
               (search_tool_normalized "wikipedia_lookup" inputs eq_refl Htext)
               eq_refl eq_refl).
    cbv zeta. rewrite Hcmd. cbn [fst]. f_equal. apply run_any_world.
  - eexists _, _. split; [reflexivity|].
    split; [exact (news_tool_normalized inputs Htext)|].
    rewrite (dispatch_run user_command "google_news" inputs _ _ w Htext eq_refl
               (news_tool_normalized inputs Htext) eq_refl eq_refl).
    cbv zeta. rewrite Hcmd. cbn [fst]. f_equal. apply run_any_world.
Qed.

(** C2, amended: when the call carries a mapping under [inputs], the
    normalized arguments are exactly [title] and [body], each read from that
    mapping, with "example title" / "example body" where the mapping has no
    such key; no exception is raised. *)
Theorem notion_page_normalization (inputs nested : pydict) :
  dict_lookup inputs "inputs" = Some (PDict nested) ->
  ReActTool.normalize_inputs "notion_page" inputs
    = Ret [("title", default (PStr "example title") (dict_lookup nested "title"));
           ("body", default (PStr "example body") (dict_lookup nested "body"))].
Proof.
  intros Hnested. unfold ReActTool.normalize_inputs. cbn. rewrite Hnested. cbn.
  now destruct (dict_lookup nested "title"), (dict_lookup nested "body").
Qed.

End DispatchFacts.

Lemma dispatch_direct_result_witness :
  contains "multi-step" (lower "do X") = false
  /\ "google_search" ∈ ["google_search"; "wikipedia_lookup"; "google_news"]
  /\ @has_text Mini.runtime (PDict [("term", PStr "cats")]) = true
  /\ (@ReActTool.handle_user_request Mini.runtime "do X" "google_search"
        [("term", PStr "cats")] Jobs.empty_world).1
     = Ret (PStr "https://www.notion.so/page").
Proof.
  split; [reflexivity|]. split; [apply list_elem_of_here|]. split; [reflexivity|].
  destruct (@dispatch_direct_result Mini.runtime "do X" "google_search"
              [("term", PStr "cats")] Jobs.empty_world eq_refl
              (list_elem_of_here _ _) eq_refl)
    as (selected & processed & Hsel & Hnorm & ->).
  injection Hsel as <-. injection Hnorm as <-. reflexivity.
Defined.

Lemma unknown_tool_rejected_witness :
  dict_has ReActTool.dynamic_tools "nonexistent_tool" = false
  /\ @has_text Mini.runtime (PDict []) = true
  /\ (@ReActTool.handle_user_request Mini.runtime "find cats" "nonexistent_tool" []
        Jobs.empty_world).1
     = Ret (PStr "Tool 'nonexistent_tool' not available.")
  /\ Jobs.sent (@ReActTool.handle_user_request Mini.runtime "find cats" "nonexistent_tool" []
                  Jobs.empty_world).2 = [].
Proof.
  split; [reflexivity|]. split; [reflexivity|].
  destruct (@unknown_tool_rejected Mini.runtime "find cats" "nonexistent_tool" []
              Jobs.empty_world eq_refl eq_refl) as (Hr & Hsent & _).
  split; [exact Hr | exact Hsent].
Defined.

(** C9, as stated, fails: a dispatch to an unknown tool is not without
    another effect, since three lines go to standard output, and it is not
    always a return, since an argument that is an int of 4301 digits makes
    the third of them raise a [ValueError]. *)
Lemma unknown_tool_counterexample :
  Jobs.stdout (@ReActTool.handle_user_request Mini.runtime "find cats" "nonexistent_tool" []
                 Jobs.empty_world).2
    = ReActTool.out_line "handle_user_request: Received user command: find cats"
      +:+ ReActTool.out_line "handle_user_request: Claude selected tool 'nonexistent_tool'"
      +:+ ReActTool.out_line "handle_user_request: Raw inputs: {}"
  /\ (@ReActTool.handle_user_request Mini.runtime "find cats" "nonexistent_tool"
        [("n", PInt (10 ^ 4300))] Jobs.empty_world).1
     = Raise int_text_error.
Proof. split; vm_compute; reflexivity. Qed.

Lemma multi_step_search_raises_witness :
  contains "multi-step" (lower "Multi-step research on cats") = true
  /\ ReActTool.is_search_tool "google_search" = true
  /\ @has_text Mini.runtime (PDict [("inputs", PDict [("query", PStr "cats")])]) = true
  /\ (@ReActTool.handle_user_request Mini.runtime "Multi-step research on cats"
        "google_search" [("inputs", PDict [("query", PStr "cats")])] Jobs.empty_world).1
     = Raise (Exn TypeError "react_agent() got an unexpected keyword argument 'query'").
Proof.
  split; [reflexivity|]. split; [reflexivity|]. split; [reflexivity|].
  apply (@multi_step_search_raises Mini.runtime "Multi-step research on cats"
           "google_search" [("inputs", PDict [("query", PStr "cats")])] Jobs.empty_world);
    reflexivity.
Defined.

(** C2, as stated, fails: a call that selects the page-creation tool and
    carries no [inputs] argument raises an [AttributeError] while the
    arguments are normalized. *)
Lemma notion_page_without_inputs_raises :
  @ReActTool.normalize_inputs Mini.runtime "notion_page" []
    = Raise (Exn AttributeError "'NoneType' object has no attribute 'get'")
  /\ (@ReActTool.handle_user_request Mini.runtime "create a page" "notion_page" []
        Jobs.empty_world).1
     = Raise (Exn AttributeError "'NoneType' object has no attribute 'get'")
  /\ @ReActTool.normalize_inputs Mini.runtime "notion_page"
       [("title", PStr "T"); ("body", PStr "B")]
     = Raise (Exn AttributeError "'NoneType' object has no attribute 'get'").
Proof. repeat split; reflexivity. Qed.

Lemma notion_page_normalization_witness :
  dict_lookup [("inputs", PDict [("title", PStr "T")])] "inputs"
    = Some (PDict [("title", PStr "T")])
  /\ @ReActTool.normalize_inputs Mini.runtime "notion_page"
       [("inputs", PDict [("title", PStr "T")])]
     = Ret [("title", PStr "T"); ("body", PStr "example body")].
Proof.
  split; [reflexivity|].
  apply (@notion_page_normalization Mini.runtime [("inputs", PDict [("title", PStr "T")])]
           [("title", PStr "T")]).
  reflexivity.
Defined.

(** ** What a dispatch sends and returns *)

Section DispatchMore.
Context `{Runtime}.

(** The request of a tool with one input field, when the arguments carry
    the text [q] under the key [given]. *)
Lemma run_field_tool (self : ReActTool.DynamicWordwareTool) (field given q : string)
    (w : Jobs.world) :
  ReActTool.payload_template self = Spec.written_tree (Spec.field_template field) ->
  Spec.plain_key field = true ->
  Jobs.sent (ReActTool.run self [(given, PStr q)] w).2
  = Jobs.sent w ++
    [Jobs.Request (ReActTool.api_url self)
       (Spec.field_payload field
          (if String.eqb given field then q else "{" +:+ field +:+ "}"))].
Proof.
  intros Htemplate Hkey.
  destruct (run_plain self (Spec.field_template field) [(given, PStr q)] w
              (eq_sym Htemplate)) as (_ & _ & ->);
    [cbn; now rewrite Hkey | reflexivity | reflexivity |].
  cbn [snd Jobs.sent Jobs.send]. do 3 f_equal.
  unfold Spec.field_payload, Spec.field_template.
  cbn [Spec.rendered_tree map]. unfold Spec.rendered_leaf.
  cbn [forallb Spec.hole_present Spec.filled Spec.filled_piece Spec.written
       Spec.written_piece andb]. unfold dict_has. cbn [dict_lookup].
  destruct (String.eqb given field); cbn [py_str]; now rewrite ?append_empty_r.
Qed.


(** What a dispatch sends is what the tool's [run] sends. *)
Lemma dispatch_sent (user_command tool : string) (inputs processed : pydict)
    (selected : ReActTool.DynamicWordwareTool) (w : Jobs.world) (after : list Jobs.request) :
  has_text (PDict inputs) = true ->
  dict_lookup ReActTool.dynamic_tools tool = Some selected ->
  ReActTool.normalize_inputs tool inputs = Ret processed ->
  has_text (PDict processed) = true ->
  dict_has processed "self" = false ->
  (forall w0, Jobs.sent (ReActTool.run selected processed w0).2 = Jobs.sent w0 ++ after) ->
  Jobs.sent (ReActTool.handle_user_request user_command tool inputs w).2
  = Jobs.sent w ++ after.
Proof.
  intros Htext Hsel Hnorm Hprocessed Hself Hrun.
  rewrite (dispatch_run user_command tool inputs processed selected w
             Htext Hsel Hnorm Hprocessed Hself).
  cbv zeta. destruct (contains "multi-step" (lower user_command));
    cbn [snd Jobs.sent Jobs.print Jobs.write]; now rewrite Hrun.
Qed.

(** Whatever the command, for arguments that have a text form a dispatch
    to [google_search] or [google_news] sends one request to that tool's
    endpoint whose single input is the string forms of the truthy argument
    values (for the news tool: of those whose key is neither
    [user_command] nor [tool]), in argument order, joined by single
    spaces.  This holds also when the hand-over to the refinement pass
    fails afterwards. *)
Theorem dispatch_search_payload (user_command : string) (inputs : pydict) (w : Jobs.world) :
  has_text (PDict inputs) = true ->
  (exists selected,
     dict_lookup ReActTool.dynamic_tools "google_search" = Some selected
     /\ Jobs.sent (ReActTool.handle_user_request user_command "google_search" inputs w).2
        = Jobs.sent w ++
          [Jobs.Request (ReActTool.api_url selected)
             (Spec.field_payload "query" (Spec.joined (fun _ => true) inputs))])
  /\ (exists selected,
        dict_lookup ReActTool.dynamic_tools "google_news" = Some selected
        /\ Jobs.sent (ReActTool.handle_user_request user_command "google_news" inputs w).2
           = Jobs.sent w ++
             [Jobs.Request (ReActTool.api_url selected)
                (Spec.field_payload "news"
                   (Spec.joined (fun key => negb (ReActTool.reserved_key key)) inputs))]).
Proof.
  intros Htext. split; eexists; (split; [reflexivity|]).
  - apply (dispatch_sent user_command "google_search" inputs _ _ w _ Htext eq_refl
             (search_tool_normalized "google_search" inputs eq_refl Htext) eq_refl eq_refl).
    intros w0. refine (run_field_tool _ "query" "query" _ w0 _ _); reflexivity.
  - apply (dispatch_sent user_command "google_news" inputs _ _ w _ Htext eq_refl
             (news_tool_normalized inputs Htext) eq_refl eq_refl).
    intros w0. refine (run_field_tool _ "news" "news" _ w0 _ _); reflexivity.
Qed.

(** Whatever the command, for arguments that have a text form a dispatch
    to [wikipedia_lookup] sends the placeholder itself: normalization
    stores the search text under [query], the template asks for [term], and
    the renderer leaves an unfilled placeholder as written. *)
Theorem dispatch_wikipedia_payload (user_command : string) (inputs : pydict)
    (w : Jobs.world) :
  has_text (PDict inputs) = true ->
  exists selected,
    dict_lookup ReActTool.dynamic_tools "wikipedia_lookup" = Some selected
    /\ Jobs.sent (ReActTool.handle_user_request user_command "wikipedia_lookup" inputs w).2
       = Jobs.sent w ++
         [Jobs.Request (ReActTool.api_url selected) (Spec.field_payload "term" "{term}")].
Proof.
  intros Htext. eexists; (split; [reflexivity|]).
  apply (dispatch_sent user_command "wikipedia_lookup" inputs _ _ w _ Htext eq_refl
           (search_tool_normalized "wikipedia_lookup" inputs eq_refl Htext)
           eq_refl eq_refl).
  intros w0. refine (run_field_tool _ "term" "query" _ w0 _ _); reflexivity.
Qed.






(** A dispatch never touches the job store or the scheduled coroutines, and
    it sends at most one request, which goes to the endpoint of the tool
    that was selected. *)
Theorem dispatch_effects (user_command tool : string) (inputs : pydict) (w : Jobs.world) :
  let w' := (ReActTool.handle_user_request user_command tool inputs w).2 in
  Jobs.jobs w' = Jobs.jobs w
  /\ Jobs.tasks w' = Jobs.tasks w
  /\ (Jobs.sent w' = Jobs.sent w
      \/ exists selected payload,
           dict_lookup ReActTool.dynamic_tools tool = Some selected
           /\ Jobs.sent w' = Jobs.sent w ++ [Jobs.Request (ReActTool.api_url selected) payload]).
Proof.
  cbv zeta. unfold ReActTool.handle_user_request.
  destruct (to_text (PDict inputs)) as [raw|e]; [|now auto].
  destruct (dict_lookup ReActTool.dynamic_tools tool) as [selected|]; [|now auto].
  destruct (ReActTool.normalize_inputs tool inputs) as [processed|e]; [|now auto].
  destruct (to_text (PDict processed)) as [shown|e]; [|now auto].
  unfold ReActTool.call_run. destruct (dict_has processed "self"); [now auto|].
  match goal with
  | |- context [ReActTool.run selected processed ?w4] =>
      destruct (run_cases selected processed w4) as [[e ->]|(payload & _ & ->)]
  end.
  - destruct (contains "multi-step" (lower user_command));
      [destruct (ReActTool.call_react_agent _ _ _)|]; cbn; now auto.
  - destruct (contains "multi-step" (lower user_command));
      [destruct (ReActTool.call_react_agent _ _ _)|]; cbn;
      (split; [reflexivity|]); (split; [reflexivity|]); right; now exists selected, payload.
Qed.

End DispatchMore.


Lemma dispatch_search_payload_witness :
  @has_text Mini.runtime (PDict [("topic", PStr "cats"); ("limit", PInt 3)]) = true
  /\ Jobs.sent (@ReActTool.handle_user_request Mini.runtime "find" "google_search"
                  [("topic", PStr "cats"); ("limit", PInt 3)] Jobs.empty_world).2
     = [Jobs.Request
          "https://app.wordware.ai/api/released-app/6e7817c6-5f67-4905-ab5b-18f28c333637/run"
          (Spec.field_payload "query" "cats 3")].
Proof.
  assert (Htext : @has_text Mini.runtime (PDict [("topic", PStr "cats"); ("limit", PInt 3)])
                  = true) by (vm_compute; reflexivity).
  split; [exact Htext|].
  destruct (@dispatch_search_payload Mini.runtime "find"
              [("topic", PStr "cats"); ("limit", PInt 3)] Jobs.empty_world Htext)
    as [(selected & Hsel & ->) _].
  injection Hsel as <-. reflexivity.
Defined.

Lemma dispatch_wikipedia_payload_witness :
  @has_text Mini.runtime (PDict [("term", PStr "cats")]) = true
  /\ Jobs.sent (@ReActTool.handle_user_request Mini.runtime "look up" "wikipedia_lookup"
                  [("term", PStr "cats")] Jobs.empty_world).2
     = [Jobs.Request
          "https://app.wordware.ai/api/released-app/4d4b0a16-d62b-4ec2-a43d-ac8c1ee18de8/run"
          (Spec.field_payload "term" "{term}")].
Proof.
  split; [reflexivity|].
  destruct (@dispatch_wikipedia_payload Mini.runtime "look up"
              [("term", PStr "cats")] Jobs.empty_world eq_refl)
    as (selected & Hsel & ->).
  injection Hsel as <-. reflexivity.
Defined.

(** ** Lines that do not count *)

Section StreamMore.
Context `{Runtime}.

Lemma scan_lines_drop (not_found line : string) (before rest : list string) :
  Spec.skipped line ->
  Stream.scan_lines not_found (before ++ line :: rest)
  = Stream.scan_lines not_found (before ++ rest).
Proof.
  intros Hline. induction before as [|x before IH].
  - exact (scan_lines_skip not_found [line] rest (Forall_cons_2 _ _ _ Hline (Forall_nil_2 _))).
  - cbn. destruct (is_empty (strip x)); [exact IH|].
    destruct (Stream.check_line x) as [[r|]|e]; [reflexivity | exact IH | reflexivity].
Qed.

(** Removing from a response body a line that is blank, undecodable, or
    decoded to an object without a code output changes the result of none
    of the three extractors, wherever the line stands. *)
Theorem extract_ignores_skipped_line
    (response_text shorter line : string) (before rest : list string) :
  split newline response_text = before ++ line :: rest ->
  split newline shorter = before ++ rest ->
  Spec.skipped line ->
  ReActTool.process_response response_text = ReActTool.process_response shorter
  /\ WordwareMcp._process_streaming_response response_text
     = WordwareMcp._process_streaming_response shorter
  /\ WordwareApi._process_streaming_response response_text
     = WordwareApi._process_streaming_response shorter.
Proof.
  intros Htext Hshorter Hline.
  unfold ReActTool.process_response, WordwareMcp._process_streaming_response,
    WordwareApi._process_streaming_response.
  rewrite Htext, Hshorter. repeat split; now apply scan_lines_drop.
Qed.

End StreamMore.

Lemma extract_ignores_skipped_line_witness :
  split newline (Mini.code_chunk "X" +:+ chr newline +:+ "not json")
    = [Mini.code_chunk "X"] ++ "not json" :: []
  /\ split newline (Mini.code_chunk "X") = [Mini.code_chunk "X"] ++ []
  /\ @Spec.skipped Mini.runtime "not json"
  /\ @ReActTool.process_response Mini.runtime
       (Mini.code_chunk "X" +:+ chr newline +:+ "not json")
     = @ReActTool.process_response Mini.runtime (Mini.code_chunk "X").
Proof.
  assert (Hs : @Spec.skipped Mini.runtime "not json") by (right; left; reflexivity).
  split; [vm_compute; reflexivity|]. split; [vm_compute; reflexivity|].
  split; [exact Hs|].
  refine (proj1 (@extract_ignores_skipped_line Mini.runtime _ _ "not json"
                   [Mini.code_chunk "X"] [] _ _ Hs)); vm_compute; reflexivity.
Defined.

(** ** Cleaning twice *)

Lemma one_line_cons (c : ascii) (s : string) :
  Spec.one_line (String c s) = true ->
  char_eqb c newline = false /\ Spec.one_line s = true.
Proof.
  unfold Spec.one_line. cbn [mem_char]. intros Hm.
  apply negb_true_iff, orb_false_iff in Hm as [Hc Hs].
  unfold char_eqb in *. rewrite Ascii.eqb_sym in Hc. split; [exact Hc|].
  now rewrite Hs.
Qed.

Lemma split_one_line (s : string) :
  Spec.one_line s = true -> split newline s = [s].
Proof.
  induction s as [|c s IH]; [reflexivity|]. intros Hs.
  apply one_line_cons in Hs as [Hc Hs]. cbn [split]. now rewrite Hc, IH.
Qed.

Lemma split_line_then (s t : string) :
  Spec.one_line s = true ->
  split newline (s +:+ String newline t) = s :: split newline t.
Proof.
  induction s as [|c s IH]; intros Hs.
  - reflexivity.
  - apply one_line_cons in Hs as [Hc Hs]. rewrite append_cons. cbn [split].
    now rewrite Hc, IH.
Qed.

Lemma split_join (lines : list string) :
  lines <> [] -> Forall (fun l => Spec.one_line l = true) lines ->
  split newline (join (chr newline) lines) = lines.
Proof.
  induction lines as [|l lines IH]; [congruence|]. intros _ Hall.
  apply Forall_cons in Hall as [Hl Hall]. destruct lines as [|l' lines].
  - now apply split_one_line.
  - change (join (chr newline) (l :: l' :: lines))
      with (l +:+ String newline (join (chr newline) (l' :: lines))).
    rewrite split_line_then by assumption. f_equal. now apply IH.
Qed.

Lemma one_line_intro (c : ascii) (s : string) :
  char_eqb c newline = false -> Spec.one_line s = true ->
  Spec.one_line (String c s) = true.
Proof.
  unfold Spec.one_line, char_eqb. cbn [mem_char]. unfold char_eqb.
  intros Hc Hs. rewrite Ascii.eqb_sym, Hc. exact Hs.
Qed.

Lemma split_lines_one_line (s : string) :
  Forall (fun l => Spec.one_line l = true) (split newline s).
Proof.
  induction s as [|c s IH]; [repeat constructor|]. cbn [split].
  destruct (char_eqb c newline) eqn:Hc; [constructor; [reflexivity | exact IH]|].
  destruct (split newline s) as [|h r].
  - constructor; [|constructor]. now apply one_line_intro.
  - apply Forall_cons in IH as [Hh Hr]. constructor; [|exact Hr].
    now apply one_line_intro.
Qed.

Lemma one_line_rstrip (s : string) :
  Spec.one_line s = true -> Spec.one_line (rstrip s) = true.
Proof.
  unfold Spec.one_line. intros Hs. apply negb_true_iff. apply negb_true_iff in Hs.
  destruct (mem_char newline (rstrip s)) eqn:Hm; [|reflexivity].
  apply mem_char_rstrip in Hm. congruence.
Qed.

Lemma body_lines_one_line (body : string) :
  Forall (fun l => Spec.one_line l = true) (Spec.body_lines body).
Proof.
  unfold Spec.body_lines. apply Forall_forall. intros line Hin.
  apply list_elem_of_filter in Hin as [_ Hin].
  apply list_elem_of_fmap in Hin as (l & -> & Hl).
  apply one_line_rstrip. pose proof (split_lines_one_line body) as Hall.
  rewrite Forall_forall in Hall. now apply Hall.
Qed.

Lemma clean_lines_fixed (lines : list string) :
  Forall (fun line => rstrip line = line /\ is_empty line = false) lines ->
  filter (fun line => is_empty line = false) (map rstrip lines) = lines.
Proof.
  induction 1 as [|l lines [Hr Hne] _ IH]; [reflexivity|].
  cbn [map]. rewrite filter_cons, Hr. destruct (decide (is_empty l = false)); [|contradiction].
  now rewrite IH.
Qed.

(** [_clean_body] is idempotent: a body that went through it comes out of
    it unchanged. *)
Theorem clean_body_idempotent (body : string) :
  WordwareMcp._clean_body (WordwareMcp._clean_body body) = WordwareMcp._clean_body body.
Proof.
  rewrite !clean_body_spec. unfold Spec.cleaned_body at 1 3. f_equal.
  pose proof (body_lines_clean body) as Hclean.
  pose proof (body_lines_one_line body) as Hone.
  unfold Spec.cleaned_body.
  destruct (Spec.body_lines body) as [|l lines] eqn:Hlines; [reflexivity|].
  unfold Spec.body_lines at 1. rewrite split_join by (congruence || assumption).
  now apply clean_lines_fixed.
Qed.

Lemma lstrip_idempotent (s : string) : lstrip (lstrip s) = lstrip s.
Proof.
  induction s as [|c s IH]; [reflexivity|]. cbn [lstrip].
  destruct (isspace c) eqn:Hc; [exact IH|]. cbn [lstrip]. now rewrite Hc.
Qed.

Lemma rstrip_lstrip (s : string) : rstrip s = s -> rstrip (lstrip s) = lstrip s.
Proof.
  induction s as [|c s IH]; [reflexivity|]. cbn [lstrip rstrip].
  destruct (isspace c) eqn:Hc; cbn [andb].
  - destruct (is_empty (rstrip s)); [discriminate|]. intros [= Hs]. now apply IH.
  - intros [= Hs]. cbn [rstrip]. now rewrite Hc, Hs.
Qed.

Lemma strip_fixed (s : string) : strip (strip s) = strip s.
Proof.
  unfold strip. rewrite (rstrip_lstrip (rstrip s)) by apply rstrip_idempotent.
  apply lstrip_idempotent.
Qed.

Lemma lstrip_take_prefix (n : nat) (s : string) :
  lstrip s = s -> lstrip (take_prefix n s) = take_prefix n s.
Proof.
  destruct n as [|n]; [now destruct s|]. destruct s as [|c s]; [reflexivity|].
  cbn [lstrip take_prefix]. destruct (isspace c) eqn:Hc; [|reflexivity].
  intros Hs. exfalso. apply (f_equal String.length) in Hs. cbn in Hs.
  assert (Hlen : forall t, (String.length (lstrip t) <= String.length t)%nat).
  { induction t as [|d t IHt]; cbn; [lia|]. destruct (isspace d); cbn; lia. }
  specialize (Hlen s). lia.
Qed.

Lemma take_prefix_all (n : nat) (s : string) :
  (String.length s <= n)%nat -> take_prefix n s = s.
Proof.
  revert s. induction n as [|n IH]; intros [|c s]; cbn; try reflexivity; try lia.
  intros Hlen. f_equal. apply IH. lia.
Qed.

Lemma remove_chars_none (bad : ascii -> bool) (s : string) :
  (forall c, mem_char c s = true -> bad c = false) -> remove_chars bad s = s.
Proof.
  induction s as [|c s IH]; [reflexivity|]. intros Hs. cbn [remove_chars].
  rewrite (Hs c) by (cbn; unfold char_eqb; now rewrite Ascii.eqb_refl).
  f_equal. apply IH. intros d Hd. apply Hs. cbn. rewrite Hd. apply orb_true_r.
Qed.

Lemma cleaned_text_chars (title : string) (c : ascii) :
  mem_char c (strip (remove_chars WordwareMcp.is_special title)) = true ->
  WordwareMcp.is_special c = false.
Proof.
  intros Hm. apply mem_char_lstrip, mem_char_rstrip in Hm.
  exact (mem_char_removed _ _ _ Hm).
Qed.

(** The title that [_clean_title] returns is never empty and never starts
    with white space. *)
Theorem clean_title_nonempty (title : string) :
  is_empty (WordwareMcp._clean_title title) = false
  /\ lstrip (WordwareMcp._clean_title title) = WordwareMcp._clean_title title.
Proof.
  rewrite clean_title_spec. unfold Spec.cleaned_title. cbv zeta.
  destruct (is_empty (take_prefix 100 _)) eqn:He; [split; reflexivity|].
  split; [exact He|]. apply lstrip_take_prefix. unfold strip. apply lstrip_idempotent.
Qed.

(** When the cleaned title needs no cut (at most 100 characters are left
    after the special characters and the surrounding white space are
    removed), [_clean_title] is idempotent and its result ends in no white
    space. *)
Theorem clean_title_idempotent (title : string) :
  (String.length (strip (remove_chars WordwareMcp.is_special title)) <= 100)%nat ->
  WordwareMcp._clean_title (WordwareMcp._clean_title title) = WordwareMcp._clean_title title
  /\ rstrip (WordwareMcp._clean_title title) = WordwareMcp._clean_title title.
Proof.
  intros Hlen. rewrite !clean_title_spec.
  set (x := strip (remove_chars WordwareMcp.is_special title)) in *.
  assert (Ht : Spec.cleaned_title title = if is_empty x then "Untitled" else x).
  { unfold Spec.cleaned_title. cbv zeta. fold x. now rewrite (take_prefix_all 100). }
  rewrite Ht. destruct (is_empty x) eqn:He; [split; reflexivity|].
  assert (Hr : rstrip x = x)
    by (subst x; unfold strip; apply rstrip_lstrip, rstrip_idempotent).
  split; [|exact Hr].
  unfold Spec.cleaned_title. cbv zeta.
  rewrite (remove_chars_none WordwareMcp.is_special x)
    by (intros c Hc; subst x; exact (cleaned_text_chars title c Hc)).
  replace (strip x) with x by (subst x; symmetry; apply strip_fixed).
  rewrite (take_prefix_all 100) by exact Hlen. now rewrite He.
Qed.

Lemma clean_title_idempotent_witness :
  (String.length (strip (remove_chars WordwareMcp.is_special "  What? A <plan>  ")) <= 100)%nat
  /\ WordwareMcp._clean_title "  What? A <plan>  " = "What A plan"
  /\ WordwareMcp._clean_title (WordwareMcp._clean_title "  What? A <plan>  ")
     = WordwareMcp._clean_title "  What? A <plan>  ".
Proof.
  split; [vm_compute; lia|]. split; [reflexivity|].
  refine (proj1 (clean_title_idempotent "  What? A <plan>  " _)). vm_compute. lia.
Defined.

(** ** The Notion page tools of wordware_mcp *)

Section PageTools.
Context `{Runtime}.

(** [create_notion_page] leaves the job store and the scheduled coroutines
    alone.  With neither a title nor a body (absent or empty) it returns the
    fixed request for a parameter and sends nothing; otherwise it sends
    exactly one request, with the cleaned title and body, and returns what
    the extractor found or, when the request or the extraction raised, the
    text "Failed to create Notion page: " followed by the exception text. *)
Theorem create_notion_page_requests (title body : option string) (w : world) :
  let r := WordwareMcp.create_notion_page title body w in
  jobs r.2 = jobs w
  /\ tasks r.2 = tasks w
  /\ if WordwareMcp.any_given title body then
       let payload :=
         PDict [("inputs",
                 PDict [("title",
                         PStr (Spec.cleaned_title (WordwareMcp.text_or_empty title)));
                        ("body",
                         PStr (Spec.cleaned_body (WordwareMcp.text_or_empty body)))]);
                ("version", PStr "^1.0")] in
       sent r.2 = sent w ++ [Request WordwareMcp.base_url payload]
       /\ r.1 = match WordwareMcp.make_request_finish
                        (http_post WordwareMcp.base_url payload) with
                | Ret found => found
                | Raise e => PStr ("Failed to create Notion page: " +:+ exn_text e)
                end
     else r = (PStr WordwareMcp.missing_parameters, w).
Proof.
  cbv zeta. unfold WordwareMcp.create_notion_page.
  destruct (WordwareMcp.any_given title body); cbn [negb]; [|now repeat split].
  unfold WordwareMcp.make_request, WordwareMcp.make_request_payload,
    WordwareMcp._validate_and_clean_input.
  rewrite clean_title_spec, clean_body_spec.
  destruct (WordwareMcp.make_request_finish _); cbn; now repeat split.
Qed.

(** [create_notion_page_async] with neither a title nor a body returns an
    error record and changes nothing.  Otherwise it returns the job id with
    the status pending, sends nothing yet, schedules one coroutine for the
    job, and a poll for that id right away shows a pending job with neither
    result nor error, while a poll for any other id shows what it showed
    before. *)
Theorem create_notion_page_async_poll
    (title body : option string) (job_id : string) (w : world) :
  let r := WordwareMcp.create_notion_page_async title body job_id w in
  if WordwareMcp.any_given title body then
    r.1 = PDict [("job_id", PStr job_id); ("status", PStr "pending")]
    /\ get_job_status job_id r.2
       = PDict [("status", PStr "pending"); ("result", PNone); ("error", PNone)]
    /\ (forall other, other <> job_id ->
                      get_job_status other r.2 = get_job_status other w)
    /\ sent r.2 = sent w
    /\ tasks r.2
       = tasks w ++ [WordwareMcp.background_create_page job_id
                       (WordwareMcp.text_or_empty title) (WordwareMcp.text_or_empty body)]
  else r = (PDict [("error", PStr WordwareMcp.missing_parameters)], w).
Proof.
  cbv zeta. unfold WordwareMcp.create_notion_page_async.
  destruct (WordwareMcp.any_given title body); cbn [negb]; [|reflexivity].
  unfold start_job, create_task, store_job, get_job_status. cbn [fst snd jobs tasks sent].
  split; [reflexivity|]. split; [now rewrite lookup_insert_eq|].
  split; [|now split].
  intros other Hother. now rewrite lookup_insert_ne.
Qed.

(** [run_async] with ordinary keyword arguments behaves in the same way;
    with a keyword named [job_id] it raises a [TypeError] after the job was
    stored, so that a pending job is left behind for which no coroutine was
    scheduled. *)
Theorem run_async_poll
    (self : ReActTool.DynamicWordwareTool) (job_id : string) (kwargs : pydict) (w : world) :
  dict_has kwargs "self" = false ->
  let r := ReActTool.run_async self job_id kwargs w in
  get_job_status job_id r.2
    = PDict [("status", PStr "pending"); ("result", PNone); ("error", PNone)]
  /\ (forall other, other <> job_id ->
                    get_job_status other r.2 = get_job_status other w)
  /\ sent r.2 = sent w
  /\ if dict_has kwargs "job_id" then
       tasks r.2 = tasks w
       /\ r.1 = Raise (Exn TypeError
                  "DynamicWordwareTool._background_run() got multiple values for argument 'job_id'")
     else
       tasks r.2 = tasks w ++ [ReActTool._background_run self job_id kwargs]
       /\ r.1 = Ret (PDict [("job_id", PStr job_id); ("status", PStr "pending")]).
Proof.
  intros Hself. cbv zeta. unfold ReActTool.run_async. rewrite Hself.
  destruct (dict_has kwargs "job_id");
    unfold start_job, create_task, store_job, get_job_status;
    cbn [fst snd jobs tasks sent]; rewrite lookup_insert_eq;
    (split; [reflexivity|]); (split; [|now repeat split]);
    intros other Hother; now rewrite lookup_insert_ne.
Qed.

End PageTools.

Lemma run_async_poll_witness :
  dict_has Demo.kwargs "self" = false
  /\ get_job_status "job-1"
       (@ReActTool.run_async Mini.runtime Demo.page_tool "job-1" Demo.kwargs empty_world).2
     = PDict [("status", PStr "pending"); ("result", PNone); ("error", PNone)].
Proof.
  split; [reflexivity|].
  exact (proj1 (@run_async_poll Mini.runtime Demo.page_tool "job-1" Demo.kwargs
                  empty_world eq_refl)).
Defined.

(** ** A background coroutine from start to end *)

(** A coroutine that starts on its untouched job and runs to its end
    leaves the job complete with the result of its work, or failed with the
    text of the exception its work raised; it sends its request unless the
    preparation of the request raised. *)
Lemma run_alone_outcome (t : task) (o : http_outcome) (store : gmap string job) :
  at_pc t = AtStart ->
  store !! task_job t = Some new_job ->
  run_alone 7 t o store
  = (<[task_job t := Spec.outcome_job (prepare t) (finish t) o]> store,
     match prepare t with Ret req => [req] | Raise _ => [] end).
Proof.
  intros Hpc Hjob. destruct t as [job_id prep fin p]. cbn in Hpc, Hjob. subst p.
  unfold Spec.outcome_job. cbn [prepare finish task_job].
  unfold run_alone, task_step, assign, move.
  cbn [at_pc task_job prepare finish]. rewrite Hjob.
  destruct prep as [req|e]; cbn [at_pc task_job prepare finish].
  - destruct (fin o) as [r|e]; cbn [at_pc task_job prepare finish];
      rewrite ?lookup_insert_eq; cbn [at_pc task_job prepare finish];
      rewrite ?lookup_insert_eq; cbn; now rewrite ?insert_insert_eq.
  - rewrite ?lookup_insert_eq; cbn [at_pc task_job prepare finish];
      rewrite ?lookup_insert_eq; cbn; now rewrite ?insert_insert_eq.
Qed.

Section Coroutines.
Context `{Runtime}.



(** [background_create_page], run from start to end on its pending job,
    sends one request with the cleaned title and body.  The job ends
    complete with the extracted value when the answer has a 2xx status and
    the extraction returns, and with the status "error" and the exception
    text as its error in every other case. *)
Theorem background_create_page_outcome
    (job_id title body : string) (o : http_outcome) (store : gmap string job) :
  store !! job_id = Some new_job ->
  run_alone 7 (WordwareMcp.background_create_page job_id title body) o store
  = (<[job_id := match WordwareMcp.make_request_finish o with
                 | Ret found => Job Complete found PNone
                 | Raise e => Job Failed PNone (PStr (exn_text e))
                 end]> store,
     [Request WordwareMcp.base_url
        (PDict [("inputs", PDict [("title", PStr (Spec.cleaned_title title));
                                  ("body", PStr (Spec.cleaned_body body))]);
                ("version", PStr "^1.0")])]).
Proof.
  intros Hjob. rewrite run_alone_outcome by (reflexivity || exact Hjob).
  unfold WordwareMcp.background_create_page, Spec.outcome_job.
  cbn [prepare finish task_job].
  unfold WordwareMcp.make_request_payload, WordwareMcp._validate_and_clean_input.
  now rewrite clean_title_spec, clean_body_spec.
Qed.

End Coroutines.


Lemma background_create_page_outcome_witness :
  (<["job-9" := new_job]> (∅ : gmap string job)) !! "job-9" = Some new_job
  /\ (run_alone 7 (@WordwareMcp.background_create_page Mini.runtime "job-9" "T?" "b  ")
        (HttpResponse 401 "denied") (<["job-9" := new_job]> ∅)).1 !! "job-9"
     = Some (Job Failed PNone (PStr "HTTP status 401")).
Proof.
  assert (Hjob : (<["job-9" := new_job]> (∅ : gmap string job)) !! "job-9" = Some new_job)
    by apply lookup_insert_eq.
  split; [exact Hjob|].
  rewrite (@background_create_page_outcome Mini.runtime "job-9" "T?" "b  "
             (HttpResponse 401 "denied") (<["job-9" := new_job]> ∅) Hjob).
  cbn [fst]. now rewrite lookup_insert_eq.
Defined.

(** ** Jobs no coroutine works on *)

Lemma task_step_other (t : task) (o : http_outcome) (store : gmap string job)
    (job_id : string) :
  job_id <> task_job t -> (task_step t o store).1.1 !! job_id = store !! job_id.
Proof.
  intros Hne. unfold task_step, assign.
  destruct (at_pc t); try destruct (store !! task_job t) as [j|] eqn:Hj;
    try destruct (prepare t); try destruct (finish t o); cbn [fst];
    try reflexivity; now rewrite lookup_insert_ne.
Qed.

Lemma task_step_same_job (t u : task) (o : http_outcome) (store : gmap string job) :
  (task_step t o store).2 = Some u -> task_job u = task_job t.
Proof.
  unfold task_step, assign.
  destruct (at_pc t); try destruct (store !! task_job t) as [j|];
    try destruct (prepare t); try destruct (finish t o); cbn [snd];
    intros [= <-]; reflexivity.
Qed.

(** A coroutine that is in step with its job and ends leaves the job at
    rest. *)
Lemma task_step_end (t : task) (o : http_outcome) (store : gmap string job) (j : job) :
  store !! task_job t = Some j ->
  Spec.consistent (at_pc t) j ->
  (task_step t o store).2 = None ->
  exists j', (task_step t o store).1.1 = <[task_job t := j']> store /\ Spec.at_rest j'.
Proof.
  intros Hj (Hst & Hres & Herr). unfold task_step, assign. rewrite Hj.
  destruct j as [st res err]. cbn in Hst, Hres, Herr. subst res err.
  destruct (at_pc t); cbn in Hst; subst st; cbn [fst snd]; try discriminate.
  - destruct (prepare t); discriminate.
  - destruct (finish t o); discriminate.
  - intros _. eexists. split; [reflexivity|]. right. left. now split.
  - intros _. eexists. split; [reflexivity|]. right. right. cbn. repeat split. now eexists.
Qed.

Lemma elem_of_task_ids_middle (job_id : string) (before after : list task) (t : task)
    (t' : option task) :
  job_id <> task_job t ->
  job_id ∈ task_job <$> (before ++ t :: after) ->
  job_id ∈ task_job <$> (before ++ option_list t' ++ after).
Proof.
  intros Hne. rewrite !fmap_app, fmap_cons, !elem_of_app, elem_of_cons.
  intros [Hb|[Ht|Ha]]; [now left | contradiction | right; now right].
Qed.

Lemma rest_invariant_step (w w' : world) :
  Spec.invariant w -> Spec.rest_invariant w -> step w w' -> Spec.rest_invariant w'.
Proof.
  intros (_ & Htr & _) Hrest Hstep.
  destruct Hstep as [w new_id prep fin Hfresh | w new_id Hfresh
                    | w before t after o Htasks]; intros job_id j Hj.
  - unfold start_job, create_task, store_job in *. cbn [snd jobs tasks] in *.
    rewrite fmap_app, elem_of_app.
    destruct (decide (new_id = job_id)) as [<-|Hne].
    + left. right. cbn. apply list_elem_of_here.
    + rewrite lookup_insert_ne in Hj by assumption.
      destruct (Hrest job_id j Hj) as [Hin|Hr]; [left; now left | now right].
  - unfold store_job in *. cbn [jobs tasks] in *.
    destruct (decide (new_id = job_id)) as [<-|Hne].
    + rewrite lookup_insert_eq in Hj. injection Hj as <-. right. now left.
    + rewrite lookup_insert_ne in Hj by assumption. exact (Hrest job_id j Hj).
  - rewrite Htasks in Htr. apply Forall_app in Htr as [_ Ht].
    apply Forall_cons in Ht as [(jt & Hjt & Hc) _].
    unfold resume in *.
    pose proof (task_step_other t o (jobs w) job_id) as Hother.
    pose proof (fun u => task_step_same_job t u o (jobs w)) as Hsame.
    pose proof (task_step_end t o (jobs w) jt Hjt Hc) as Hend.
    destruct (task_step t o (jobs w)) as [[store' reqs] t'].
    cbn [fst snd jobs tasks] in *.
    destruct (decide (job_id = task_job t)) as [->|Hne].
    + destruct t' as [u|].
      * left. rewrite !fmap_app, !elem_of_app. right. left. cbn.
        rewrite (Hsame u eq_refl). apply list_elem_of_here.
      * right. destruct (Hend eq_refl) as (j' & -> & Hr).
        rewrite lookup_insert_eq in Hj. now injection Hj as <-.
    + rewrite (Hother Hne) in Hj.
      destruct (Hrest job_id j Hj) as [Hin|Hr]; [left | now right].
      rewrite Htasks in Hin. eapply elem_of_task_ids_middle; [exact Hne | exact Hin].
Qed.

Lemma rest_invariant_reachable (w : world) : reachable w -> Spec.rest_invariant w.
Proof.
  unfold reachable. intros Hreach.
  assert (Hboth : Spec.invariant w /\ Spec.rest_invariant w).
  { apply (rtc_ind_r (R := step)
             (fun w => Spec.invariant w /\ Spec.rest_invariant w) empty_world);
      [| |exact Hreach].
    - split; [apply invariant_empty|].
      intros job_id j Hj. cbn in Hj. now rewrite lookup_empty in Hj.
    - intros w0 w1 _ Hstep [Hinv Hrest].
      split; [exact (invariant_step _ _ Hinv Hstep)|].
      exact (rest_invariant_step _ _ Hinv Hrest Hstep). }
  exact (proj2 Hboth).
Qed.

Lemma step_frozen (w w' : world) (job_id : string) (j : job) :
  step w w' ->
  jobs w !! job_id = Some j ->
  job_id ∉ task_job <$> tasks w ->
  jobs w' !! job_id = Some j /\ job_id ∉ task_job <$> tasks w'.
Proof.
  intros Hstep Hj Hfree.
  destruct Hstep as [w new_id prep fin Hfresh | w new_id Hfresh
                    | w before t after o Htasks].
  - assert (Hne : new_id <> job_id) by congruence.
    unfold start_job, create_task, store_job. cbn [snd jobs tasks].
    split; [now rewrite lookup_insert_ne|].
    rewrite fmap_app, elem_of_app. intros [Hin|Hin]; [contradiction|].
    cbn in Hin. apply list_elem_of_singleton in Hin. congruence.
  - assert (Hne : new_id <> job_id) by congruence.
    unfold store_job. cbn [jobs tasks]. split; [now rewrite lookup_insert_ne | exact Hfree].
  - rewrite Htasks in Hfree. rewrite fmap_app, fmap_cons, elem_of_app, elem_of_cons in Hfree.
    assert (Hne : job_id <> task_job t) by tauto.
    unfold resume.
    pose proof (task_step_other t o (jobs w) job_id Hne) as Hother.
    pose proof (fun u => task_step_same_job t u o (jobs w)) as Hsame.
    destruct (task_step t o (jobs w)) as [[store' reqs] t'].
    cbn [fst snd jobs tasks] in *. split; [now rewrite Hother|].
    rewrite !fmap_app, !elem_of_app. intros [Hin|[Hin|Hin]]; [tauto| |tauto].
    destruct t' as [u|]; cbn in Hin; [|now apply elem_of_nil in Hin].
    apply list_elem_of_singleton in Hin. rewrite (Hsame u eq_refl) in Hin. contradiction.
Qed.

(** In every world the event loop can reach, a job that no scheduled
    coroutine works on is at rest: untouched since it was stored, complete
    without an error, or failed with an error text and no result.  It is
    never seen processing, and from then on nothing changes it: whatever the
    event loop does later, a poll shows the same record and no coroutine is
    ever scheduled for it again. *)
Theorem job_without_coroutine (w : world) (job_id : string) (j : job) :
  reachable w ->
  jobs w !! job_id = Some j ->
  job_id ∉ task_job <$> tasks w ->
  Spec.at_rest j
  /\ status j <> Processing
  /\ forall w', rtc step w w' ->
                jobs w' !! job_id = Some j
                /\ (job_id ∉ task_job <$> tasks w')
                /\ get_job_status job_id w' = get_job_status job_id w.
Proof.
  intros Hreach Hj Hfree.
  assert (Hrest : Spec.at_rest j).
  { destruct (rest_invariant_reachable w Hreach job_id j Hj); [contradiction | assumption]. }
  split; [exact Hrest|]. split.
  - destruct Hrest as [->|[[-> _]|[-> _]]]; discriminate.
  - intros w' Hsteps.
    assert (Hfrozen : jobs w' !! job_id = Some j /\ job_id ∉ task_job <$> tasks w').
    { clear Hreach Hrest. induction Hsteps as [w|w w1 w2 Hstep _ IH]; [now split|].
      destruct (step_frozen w w1 job_id j Hstep Hj Hfree) as [Hj1 Hfree1]. now apply IH. }
    destruct Hfrozen as [Hj' Hfree']. split; [exact Hj'|]. split; [exact Hfree'|].
    unfold get_job_status. now rewrite Hj, Hj'.
Qed.

Lemma job_without_coroutine_witness :
  reachable Demo.w6
  /\ jobs Demo.w6 !! "job-1" = Some (Job Complete Demo.page_url PNone)
  /\ ("job-1" ∉ task_job <$> tasks Demo.w6)
  /\ Spec.at_rest (Job Complete Demo.page_url PNone).
Proof.
  assert (Hreach : reachable Demo.w6)
    by (unfold reachable; etrans; [exact demo_reachable | exact demo_run]).
  assert (Hj : jobs Demo.w6 !! "job-1" = Some (Job Complete Demo.page_url PNone))
    by (vm_compute; reflexivity).
  assert (Hfree : "job-1" ∉ task_job <$> tasks Demo.w6)
    by (change (tasks Demo.w6) with ([] : list task); apply not_elem_of_nil).
  split; [exact Hreach|]. split; [exact Hj|]. split; [exact Hfree|].
  exact (proj1 (job_without_coroutine Demo.w6 "job-1" _ Hreach Hj Hfree)).
Defined.

(** ** When a call raises *)

Section RaiseFacts.
Context `{Runtime}.

(** [make_request], in both clients and in the synchronous variant,
    returns only for an answer with a 2xx status, and what it returns is
    truthy: the sentinel or an output that passed the truth test.  Every
    transport failure and every other status is an exception. *)
Theorem make_request_returns (o : http_outcome) (r : pyval) :
  WordwareMcp.make_request_finish o = Ret r \/ WordwareApi.make_request_finish o = Ret r ->
  truthy r = true
  /\ exists status_code text,
       o = HttpResponse status_code text /\ 200 <= status_code <= 299.
Proof.
  unfold WordwareMcp.make_request_finish, WordwareApi.make_request_finish,
    WordwareMcp.is_success, WordwareApi.is_success,
    WordwareMcp._process_streaming_response, WordwareApi._process_streaming_response.
  destruct o as [status_code text|e]; [|intros [|]; discriminate].
  destruct ((200 <=? status_code) && (status_code <=? 299)) eqn:Hs;
    [|intros [|]; discriminate].
  intros Hr. split.
  - destruct Hr as [Hr|Hr];
      exact (scan_lines_truthy "No Notion page URL found in response" _ r eq_refl Hr).
  - exists status_code, text. split; [reflexivity|].
    apply andb_true_iff in Hs as [Hlo Hhi]. lia.
Qed.

(** [react_agent] raises exactly in three situations: it prints an
    initial result that is truthy and has no text form (the exception of
    the conversion); it has to measure a body that has no length, which
    happens only without "multi-step" in the command (a [TypeError]); or it
    appends the suffix to an initial result that is truthy and no text (a
    [TypeError]).  In every other case it returns a value. *)
Theorem react_agent_raises (user_command : string) (title body initial_result : pyval) :
  Cases.raises (ReActTool.react_agent user_command title body initial_result)
  = let multi := contains "multi-step" (lower user_command) in
    (truthy initial_result && negb (has_text initial_result))
    || (negb multi && negb (Cases.sized body))
    || ((multi || Cases.longer_than 100 body)
        && truthy initial_result && negb (Cases.is_text initial_result)).
Proof.
  cbv zeta. rewrite react_agent_outcome. unfold has_text, py_or.
  destruct (truthy initial_result) eqn:Ht; cbn [andb orb negb].
  - destruct (text_fault room initial_result) as [e|]; [reflexivity|]. cbn [negb orb].
    destruct (contains "multi-step" (lower user_command)); cbn [negb andb orb obind].
    + now destruct initial_result.
    + destruct body as [| | |s|l|d];
        cbn [py_len omap obind Cases.sized Cases.longer_than negb andb orb Cases.raises];
        try reflexivity.
      all: match goal with |- context [(100 <? ?n)%nat] => destruct (100 <? n)%nat end;
        cbn [andb orb]; try reflexivity; now destruct initial_result.
  - rewrite !andb_false_r, !orb_false_r.
    destruct (contains "multi-step" (lower user_command)); cbn [negb andb orb obind];
      [reflexivity|].
    destruct body as [| | |s|l|d];
      cbn [py_len omap obind Cases.sized Cases.longer_than negb andb orb Cases.raises];
      try reflexivity.
    all: match goal with |- context [(100 <? ?n)%nat] => destruct (100 <? n)%nat end;
      reflexivity.
Qed.


End RaiseFacts.

Lemma make_request_returns_witness :
  @WordwareMcp.make_request_finish Mini.runtime (HttpResponse 200 (Mini.code_chunk "X"))
    = Ret (PStr "X")
  /\ truthy (PStr "X") = true.
Proof.
  assert (Hr : @WordwareMcp.make_request_finish Mini.runtime
                 (HttpResponse 200 (Mini.code_chunk "X")) = Ret (PStr "X"))
    by (vm_compute; reflexivity).
  split; [exact Hr|].
  exact (proj1 (@make_request_returns Mini.runtime _ _ (or_introl Hr))).
Defined.
